(** * Auto PPT Generator: a shallow embedding of [app.py]

    The program is a Streamlit script with two core functions,
    [generate_slide_content] (one chat-completion request whose reply is parsed
    with [json.loads]) and [create_presentation] (python-pptx: one slide per
    outline entry, appended to the uploaded template), and a button handler that
    validates the form and chains the two.

    Layout of the development:
    - [Py]: the fragment of Python's dynamic semantics the script relies on
      (JSON values, truthiness, [dict.get], iteration, indexing, exceptions);
    - [Pptx]: the part of python-pptx's object model the script touches;
    - [Externals]: what lives outside the process (the chat API, the JSON
      parser, the .pptx reader and writer), taken as an interface;
    - the script's functions, in the order of the source;
    - the properties. *)

From Stdlib Require Import ZArith QArith Floats.SpecFloat Ascii String Strings.Byte.
From stdpp Require Import base option list gmap strings fin_maps.


(* ===================================================================== *)
(** ** Python values, exceptions and the operations the script applies    *)
(* ===================================================================== *)

Module Py.

(** What [json.loads] can return.  A [dict] decoded from JSON has string keys,
    each at most once: a finite map.  A float is kept as an IEEE value because
    only its being zero matters (truthiness).  A [str] is held as its UTF-8
    encoding, a surrogate code point encoded like any other (three bytes): the
    characters of the str are the groups of bytes [utf8_chars] makes. *)
#[warnings="-register-all"]
Inductive pyval : Type :=
| PyNone
| PyBool (b : bool)
| PyInt (z : Z)
| PyFloat (f : spec_float)
| PyStr (s : string)
| PyList (l : list pyval)
| PyDict (d : gmap string pyval).

(** [type(v).__name__], as it appears in CPython's error messages. *)
Definition type_name (v : pyval) : string :=
  match v with
  | PyNone => "NoneType"
  | PyBool _ => "bool"
  | PyInt _ => "int"
  | PyFloat _ => "float"
  | PyStr _ => "str"
  | PyList _ => "list"
  | PyDict _ => "dict"
  end.

(** [bool(v)]: what [if v:] and [not v] test. *)
Definition truthy (v : pyval) : bool :=
  match v with
  | PyNone => false
  | PyBool b => b
  | PyInt z => negb (z =? 0)%Z
  | PyFloat (S754_zero _) => false
  | PyFloat _ => true
  | PyStr EmptyString => false
  | PyStr _ => true
  | PyList [] => false
  | PyList _ => true
  | PyDict d => negb (bool_decide (d = ∅))
  end.

(** An exception: its class and [str(e)], the text an f-string prints. *)
Record exn : Type := Exception { exn_class : string; exn_str : string }.

Inductive result (A : Type) : Type :=
| Ok (a : A)
| Raise (e : exn).
Arguments Ok {A} a.
Arguments Raise {A} e.

#[global] Instance result_ret : MRet result := @Ok.
#[global] Instance result_bind : MBind result := λ A B f m,
  match m with
  | Ok a => f a
  | Raise e => Raise e
  end.

Definition is_ok {A} (r : result A) : bool :=
  match r with Ok _ => true | Raise _ => false end.

(** A [for] loop whose body may raise: the first exception ends the loop. *)
Fixpoint for_each {A S : Type} (body : A → S → result S) (items : list A) (s : S)
  : result S :=
  match items with
  | [] => Ok s
  | x :: rest => s' ← body x s; for_each body rest s'
  end.

Definition AttributeError (v : pyval) (attr : string) : exn :=
  Exception "AttributeError"
    ("'" +:+ type_name v +:+ "' object has no attribute '" +:+ attr +:+ "'").

Definition TypeError (msg : string) : exn := Exception "TypeError" msg.

(** [v.get(key, dflt)]: only a dict has the method. *)
Definition py_get (v : pyval) (key : string) (dflt : pyval) : result pyval :=
  match v with
  | PyDict d => Ok (default dflt (d !! key))
  | _ => Raise (AttributeError v "get")
  end.

(** *** The characters of a str *)

(** A continuation byte of UTF-8: [10xxxxxx]. *)
Definition is_continuation (b : ascii) : bool :=
  match b with
  | Ascii _ _ _ _ _ _ b6 b7 => b7 && negb b6
  end.

(** The continuation bytes [s] starts with, and what follows them. *)
Fixpoint take_continuation (s : string) : string :=
  match s with
  | String b rest =>
      if is_continuation b then String b (take_continuation rest) else EmptyString
  | EmptyString => EmptyString
  end.

Fixpoint skip_continuation (s : string) : string :=
  match s with
  | String b rest => if is_continuation b then skip_continuation rest else s
  | EmptyString => EmptyString
  end.

(** The first character of a non-empty str (a byte and the continuation bytes
    after it), and the str without it. *)
Definition utf8_head (s : string) : string :=
  match s with
  | String b rest => String b (take_continuation rest)
  | EmptyString => EmptyString
  end.

Definition utf8_tail (s : string) : string :=
  match s with
  | String b rest => skip_continuation rest
  | EmptyString => EmptyString
  end.

(** The characters after the one being read, [current], whose bytes so far
    precede [s]. *)
Fixpoint utf8_chars_from (current s : string) : list string :=
  match s with
  | EmptyString => [current]
  | String b rest =>
      if is_continuation b then utf8_chars_from (current +:+ String b EmptyString) rest
      else current :: utf8_chars_from (String b EmptyString) rest
  end.

(** The characters of a str, each as a str of its own; [len(s)] is the length
    of this list. *)
Definition utf8_chars (s : string) : list string :=
  match s with
  | EmptyString => []
  | String b rest => utf8_chars_from (String b EmptyString) rest
  end.

Definition str_chars (s : string) : list pyval := PyStr <$> utf8_chars s.

(** The items [for x in v] visits.  A str yields its characters, a dict its
    keys.  (The order of a dict's keys is the map's; every key is a str, and
    the script treats all strs alike.) *)
Definition py_iter (v : pyval) : result (list pyval) :=
  match v with
  | PyList l => Ok l
  | PyStr s => Ok (str_chars s)
  | PyDict d => Ok ((λ kv, PyStr kv.1) <$> map_to_list d)
  | _ => Raise (TypeError ("'" +:+ type_name v +:+ "' object is not iterable"))
  end.

(** [v[0]]. *)
Definition py_getitem0 (v : pyval) : result pyval :=
  match v with
  | PyList (x :: _) => Ok x
  | PyList [] => Raise (Exception "IndexError" "list index out of range")
  | PyStr (String _ _ as s) => Ok (PyStr (utf8_head s))
  | PyStr EmptyString => Raise (Exception "IndexError" "string index out of range")
  | PyDict _ => Raise (Exception "KeyError" "0")
  | _ => Raise (TypeError ("'" +:+ type_name v +:+ "' object is not subscriptable"))
  end.

(** [v[1:]].  A dict refuses a slice as a key. *)
Definition py_slice_from1 (v : pyval) : result pyval :=
  match v with
  | PyList l => Ok (PyList (tail l))
  | PyStr s => Ok (PyStr (utf8_tail s))
  | PyDict _ => Raise (TypeError "unhashable type: 'slice'")
  | _ => Raise (TypeError ("'" +:+ type_name v +:+ "' object is not subscriptable"))
  end.

(** [s.split("\n")]: never empty; a trailing newline gives a last empty piece. *)
Fixpoint split_newline (s : string) : list string :=
  match s with
  | EmptyString => [EmptyString]
  | String c rest =>
      if Ascii.eqb c (ascii_of_nat 10) then EmptyString :: split_newline rest
      else match split_newline rest with
           | piece :: pieces => String c piece :: pieces
           | [] => [String c EmptyString]
           end
  end.

End Py.
Export Py.

(* ===================================================================== *)
(** ** python-pptx: presentations, layouts, slides, placeholders, text     *)
(* ===================================================================== *)

Module Pptx.

(** A placeholder's type ([PP_PLACEHOLDER], the types a shape can carry). *)
Inductive PP_PLACEHOLDER : Set :=
| BITMAP | BODY | CENTER_TITLE | CHART | DATE | FOOTER | HEADER | MEDIA_CLIP
| OBJECT | ORG_CHART | PICTURE | SLIDE_IMAGE | SLIDE_NUMBER | SUBTITLE | TABLE
| TITLE | VERTICAL_BODY | VERTICAL_OBJECT | VERTICAL_TITLE.

(** A paragraph: the text its runs and line breaks spell (what [p.text] reads),
    and its indent level. *)
Record Paragraph : Set := { p_text : string; p_level : nat }.

Definition empty_paragraph : Paragraph := {| p_text := EmptyString; p_level := 0 |}.

(** A text body ([p:txBody]) holds at least one paragraph. *)
Record TextBody : Set := { first_p : Paragraph; more_p : list Paragraph }.

(** [tf.paragraphs] *)
Definition paragraphs (tf : TextBody) : list Paragraph := first_p tf :: more_p tf.

(** A freshly created body: one empty paragraph. *)
Definition new_txBody : TextBody := {| first_p := empty_paragraph; more_p := [] |}.

Record PlaceholderFormat : Set := { idx : nat; type : PP_PLACEHOLDER }.

(** A shape of a slide.  [placeholder_format] is [None] for a shape that is no
    placeholder; [txBody] is [None] while the shape has no text body yet. *)
Record Shape : Set := {
  placeholder_format : option PlaceholderFormat;
  txBody : option TextBody
}.

(** A slide: its shapes in document order. *)
Record Slide : Set := { shapes : list Shape }.

(** A layout: its placeholders in document order. *)
Record SlideLayout : Set := { layout_placeholders : list PlaceholderFormat }.

Record Presentation : Set := {
  slide_layouts : list SlideLayout;
  slides : list Slide
}.

(** *** Text *)

(** [shape.text_frame]: the body, created on first access. *)
Definition text_frame (sh : Shape) : TextBody := default new_txBody (txBody sh).

Definition with_text_frame (tf : TextBody) (sh : Shape) : Shape :=
  {| placeholder_format := placeholder_format sh; txBody := Some tf |}.

(** [tf.clear()]: drops every paragraph but the first and empties that one
    (its properties stay). *)
Definition clear (tf : TextBody) : TextBody :=
  {| first_p := {| p_text := EmptyString; p_level := p_level (first_p tf) |};
     more_p := [] |}.

(** *** What a paragraph makes of the text it is given *)

(** The vertical tab, which a line break reads as. *)
Definition vertical_tab : ascii := ascii_of_nat 11.

(** A line feed or a vertical tab becomes a line break. *)
Definition is_line_break (b : ascii) : bool :=
  (nat_of_ascii b =? 10) || (nat_of_ascii b =? 11).

(** The other control characters but the tab (x00-x08, x0C-x1F) are written
    as the seven characters [_x00HH_], HH the code in upper-case hexadecimal. *)
Definition is_escaped (b : ascii) : bool :=
  (nat_of_ascii b <? 9) || ((11 <? nat_of_ascii b) && (nat_of_ascii b <? 32)).

Definition hex_digit (n : nat) : ascii :=
  if n <? 10 then ascii_of_nat (48 + n) else ascii_of_nat (55 + n).

Definition escape_ctrl_char (b : ascii) : string :=
  String "_" (String "x" (String "0" (String "0"
    (String (hex_digit (nat_of_ascii b / 16))
       (String (hex_digit (nat_of_ascii b mod 16)) (String "_" EmptyString)))))).

Definition stored_byte (b : ascii) : string :=
  if is_line_break b then String vertical_tab EmptyString
  else if is_escaped b then escape_ctrl_char b
  else String b EmptyString.

(** The text a paragraph reads after [p.text = s]. *)
Fixpoint paragraph_text (s : string) : string :=
  match s with
  | EmptyString => EmptyString
  | String b rest => stored_byte b +:+ paragraph_text rest
  end.

(** A text that is stored as it is given: no control character but the tab. *)
Definition plain_byte (b : ascii) : bool := negb (is_line_break b) && negb (is_escaped b).
Definition plain_text (s : string) : bool := forallb plain_byte (list_ascii_of_string s).

(** The characters XML cannot hold and the library does not escape: U+FFFE and
    U+FFFF (bytes EF BF BE, EF BF BF) and the surrogates U+D800 to U+DFFF (bytes
    ED A0 80 to ED BF BF).  A text setter raises on a str with one of them. *)
Definition xml_forbidden (c : string) : bool :=
  match c with
  | String b0 (String b1 (String b2 EmptyString)) =>
      ((nat_of_ascii b0 =? 239) && (nat_of_ascii b1 =? 191)
       && ((nat_of_ascii b2 =? 190) || (nat_of_ascii b2 =? 191)))
      || ((nat_of_ascii b0 =? 237) && (160 <=? nat_of_ascii b1))
  | _ => false
  end.

Definition text_accepted (s : string) : bool :=
  forallb (λ c, negb (xml_forbidden c)) (utf8_chars s).

(** [p.text = s], for a text the setter accepts. *)
Definition set_p_text (s : string) (p : Paragraph) : Paragraph :=
  {| p_text := paragraph_text s; p_level := p_level p |}.

(** [p.level = n] *)
Definition set_p_level (n : nat) (p : Paragraph) : Paragraph :=
  {| p_text := p_text p; p_level := n |}.

(** [tf.paragraphs[0]] updated in place. *)
Definition alter_first_p (f : Paragraph → Paragraph) (tf : TextBody) : TextBody :=
  {| first_p := f (first_p tf); more_p := more_p tf |}.

(** [tf.add_paragraph()]: a new empty paragraph at the end. *)
Definition add_paragraph (tf : TextBody) : TextBody :=
  {| first_p := first_p tf; more_p := more_p tf ++ [empty_paragraph] |}.

(** The paragraph [add_paragraph] has just returned, updated in place: it is
    the last one. *)
Definition alter_last_p (f : Paragraph → Paragraph) (tf : TextBody) : TextBody :=
  match more_p tf with
  | [] => alter_first_p f tf
  | _ :: _ =>
      {| first_p := first_p tf;
         more_p := alter f (pred (length (more_p tf))) (more_p tf) |}
  end.

(** [tf.text = s] (what [shape.text = s] does), for a text the setter accepts:
    the old paragraphs go, and each line of [s] becomes a paragraph. *)
Definition set_text (s : string) (tf : TextBody) : TextBody :=
  match (λ line, set_p_text line empty_paragraph) <$> split_newline s with
  | p :: ps => {| first_p := p; more_p := ps |}
  | [] => new_txBody
  end.

(** [shape.text = s] *)
Definition set_shape_text (s : string) (sh : Shape) : Shape :=
  with_text_frame (set_text s (text_frame sh)) sh.

(** *** Placeholders *)

Definition has_idx (n : nat) (sh : Shape) : Prop :=
  idx <$> placeholder_format sh = Some n.

#[global] Instance has_idx_dec n sh : Decision (has_idx n sh).
Proof. unfold has_idx. apply _. Defined.

(** [slide.shapes.title]: the first placeholder whose idx is 0, with its
    position among the shapes. *)
Definition shapes_title (sl : Slide) : option (nat * Shape) :=
  list_find (has_idx 0) (shapes sl).

(** The shape at position [i], updated in place. *)
Definition alter_shape (f : Shape → Shape) (i : nat) (sl : Slide) : Slide :=
  {| shapes := alter f i (shapes sl) |}.

(** *** Adding a slide *)

(** Date, footer and slide-number placeholders of a layout are not copied. *)
Definition cloneable (ph : PlaceholderFormat) : bool :=
  match type ph with
  | DATE | FOOTER | SLIDE_NUMBER => false
  | _ => true
  end.

(** The placeholder types that are created with a text body. *)
Definition has_text_frame (t : PP_PLACEHOLDER) : bool :=
  match t with
  | TITLE | CENTER_TITLE | SUBTITLE | BODY | OBJECT => true
  | _ => false
  end.

Definition clone_placeholder (ph : PlaceholderFormat) : Shape :=
  {| placeholder_format := Some ph;
     txBody := if has_text_frame (type ph) then Some new_txBody else None |}.

(** The slide [slides.add_slide(layout)] returns: one new placeholder per
    cloneable placeholder of the layout, same idx and type, no text. *)
Definition clone_layout_placeholders (layout : SlideLayout) : Slide :=
  {| shapes := clone_placeholder <$> filter (λ ph, cloneable ph = true) (layout_placeholders layout) |}.

(** [prs.slides.add_slide(layout)] puts the slide after the existing ones.
    The script fills the slide through the reference it got; [append_slide] is
    given the slide as the loop body leaves it. *)
Definition append_slide (sl : Slide) (prs : Presentation) : Presentation :=
  {| slide_layouts := slide_layouts prs; slides := slides prs ++ [sl] |}.

End Pptx.
Export Pptx.

(* ===================================================================== *)
(** ** The world outside the script                                        *)
(* ===================================================================== *)

(** The file the uploader widget hands over. *)
Record UploadedFile : Set := { upload_name : string; upload_bytes : list byte }.

(** [io.BytesIO]: a byte buffer and a position. *)
Record BytesIO : Set := { getvalue : list byte; tell : nat }.

Definition BytesIO_new : BytesIO := {| getvalue := []; tell := 0 |}.

(** [stream.write(data)]: overwrites from the position on (padding with zero
    bytes when the position is past the end) and moves the position. *)
Definition BytesIO_write (data : list byte) (s : BytesIO) : BytesIO :=
  {| getvalue := take (tell s) (getvalue s)
                 ++ replicate (tell s - length (getvalue s)) x00
                 ++ data
                 ++ drop (tell s + length data) (getvalue s);
     tell := tell s + length data |}.

(** [stream.seek(n)] *)
Definition BytesIO_seek (n : nat) (s : BytesIO) : BytesIO :=
  {| getvalue := getvalue s; tell := n |}.

(** The chat-completion request and the part of the reply the script reads
    ([response.choices[0].message.content]). *)
Record Message : Set := { role : string; content : string }.
Record ChatRequest : Set := {
  model : string;
  messages : list Message;
  temperature : Q
}.
Record Choice : Set := { message_content : option string }.
Record ChatCompletion : Set := { choices : list Choice }.

(** What one run of the script does that can be observed from outside: the
    Streamlit elements it renders, the request it sends, the template it
    opens. *)
Inductive event : Type :=
| StError (body : string)
| StSuccess (body : string)
| StSpinner (text : string)
| StDownloadButton (label : string) (data : BytesIO) (file_name mime : string)
    (use_container_width : bool)
| ChatRequestSent (key : option string) (req : ChatRequest)
| TemplateOpened (template_file : UploadedFile).

(** The module-level state the script writes: [openai.api_key]. *)
Record Globals : Set := { openai_api_key : option string }.

(** A computation of the script: it reads and writes the globals and emits
    events, in order. *)
Definition App (A : Type) : Type := Globals → A * Globals * list event.

#[global] Instance App_ret : MRet App := λ A a g, (a, g, []).
#[global] Instance App_bind : MBind App := λ A B f m g,
  let '(a, g1, es1) := m g in
  let '(b, g2, es2) := f a g1 in
  (b, g2, es1 ++ es2).

Definition emit (e : event) : App unit := λ g, ((), g, [e]).
Definition get_globals : App Globals := λ g, (g, g, []).
Definition put_globals (g' : Globals) : App unit := λ _, ((), g', []).

Definition value_of {A} (r : A * Globals * list event) : A := r.1.1.
Definition globals_of {A} (r : A * Globals * list event) : Globals := r.1.2.
Definition events_of {A} (r : A * Globals * list event) : list event := r.2.

Definition st_error (body : string) : App unit := emit (StError body).
Definition st_success (body : string) : App unit := emit (StSuccess body).
Definition st_spinner (text : string) : App unit := emit (StSpinner text).
Definition st_download_button (label : string) (data : BytesIO)
    (file_name mime : string) (use_container_width : bool) : App unit :=
  emit (StDownloadButton label data file_name mime use_container_width).

(** The libraries and services the script calls.  Their results are not
    determined by the script: they are taken as given.
    - [chat_completions_create key req]: the reply of the service to the
      request sent under the configured key, or the exception the client raises;
    - [json_loads s]: the value [json.loads(s)] returns, or its exception;
    - [pptx_Presentation f]: the presentation [Presentation(f)] reads from the
      uploaded file, or its exception;
    - [pptx_save prs]: the bytes [prs.save(stream)] writes (saving an open
      presentation to a memory buffer does not fail);
    - [pptx_text_error v]: the exception a text setter raises when it is given
      [v], which is no str or a str it cannot store;
    - [pptx_layout_error n]: the exception [prs.slide_layouts[n]] raises when
      there is no such layout. *)
Class Externals : Type := {
  chat_completions_create : option string → ChatRequest → result ChatCompletion;
  json_loads : string → result pyval;
  pptx_Presentation : UploadedFile → result Presentation;
  pptx_save : Presentation → list byte;
  pptx_text_error : pyval → exn;
  pptx_layout_error : nat → exn
}.

(* ===================================================================== *)
(** ** The script                                                          *)
(* ===================================================================== *)

Definition dq : string := String (ascii_of_nat 34) EmptyString.
Definition quoted (s : string) : string := dq +:+ s +:+ dq.
Definition triple_quote : string := dq +:+ dq +:+ dq.

(** The f-string of [generate_slide_content]. *)
Definition prompt (raw_text guidance : string) : string :=
  "
    You are an expert at structuring long-form text into concise and clear presentation slides.
    Your task is to analyze the provided text and guidance to create the content for a slide deck.

    **Guidance:** "
  +:+ quoted guidance
  +:+ "

    **Text to Analyze:**
    "
  +:+ triple_quote
  +:+ "
    "
  +:+ raw_text
  +:+ "
    "
  +:+ triple_quote
  +:+ "

    Based on the text and guidance, break it down into a logical sequence of slides.
    Determine a reasonable number of slides needed to cover the content effectively.

    **Output Format:**
    Return ONLY a valid JSON object with a single key "
  +:+ quoted "slides"
  +:+ ". Each item in the "
  +:+ quoted "slides"
  +:+ " array
    should be an object representing one slide, containing a "
  +:+ quoted "title"
  +:+ " and a "
  +:+ quoted "content"
  +:+ " array of strings
    (for bullet points or short paragraphs).

    **Example JSON Output:**
    {
      "
  +:+ quoted "slides"
  +:+ ": [
        {
          "
  +:+ quoted "title"
  +:+ ": "
  +:+ quoted "Slide 1 Title"
  +:+ ",
          "
  +:+ quoted "content"
  +:+ ": [
            "
  +:+ quoted "First bullet point on slide 1."
  +:+ ",
            "
  +:+ quoted "Second bullet point on slide 1."
  +:+ "
          ]
        },
        {
          "
  +:+ quoted "title"
  +:+ ": "
  +:+ quoted "Slide 2 Title"
  +:+ ",
          "
  +:+ quoted "content"
  +:+ ": [
            "
  +:+ quoted "A single paragraph of text for this slide."
  +:+ "
          ]
        }
      ]
    }
    ".

#[global] Arguments prompt : simpl never.

(** Lines 56-63: the request of [openai.chat.completions.create]. *)
Definition chat_request (prompt : string) : ChatRequest :=
  {| model := "gpt-3.5-turbo";
     messages :=
       [ {| role := "system"; content := "You are a helpful presentation assistant." |};
         {| role := "user"; content := prompt |} ];
     temperature := 0.5 |}.

Section Script.
Context `{Externals}.

(** The body of the [try] of [generate_slide_content], after the request has
    been sent: read [choices[0].message.content] and parse it. *)
Definition parse_reply (reply : result ChatCompletion) : result pyval :=
  response ← reply;
  choice ← match choices response with
           | c :: _ => Ok c
           | [] => Raise (Exception "IndexError" "list index out of range")
           end;
  match message_content choice with
  | Some json_string => json_loads json_string
  | None =>
      Raise (TypeError
        "the JSON object must be str, bytes or bytearray, not NoneType")
  end.

Definition generate_slide_content (api_key raw_text guidance : string) : App pyval :=
  put_globals {| openai_api_key := Some api_key |};;
  let prompt := prompt raw_text guidance in
  let request := chat_request prompt in
  g ← get_globals;
  emit (ChatRequestSent (openai_api_key g) request);;
  match parse_reply (chat_completions_create (openai_api_key g) request) with
  | Ok outline => mret outline
  | Raise e =>
      st_error ("An error occurred with the LLM API call: " +:+ exn_str e);;
      mret PyNone
  end.

(** [x.text = v] inside python-pptx: [v] must be a str, without a character
    that XML cannot hold. *)
Definition as_text (v : pyval) : result string :=
  match v with
  | PyStr s => if text_accepted s then Ok s else Raise (pptx_text_error v)
  | _ => Raise (pptx_text_error v)
  end.

(** Lines 85-87: the title. *)
Definition fill_title (slide_data : pyval) (slide : Slide) : result Slide :=
  match shapes_title slide with
  | Some (i, _) =>
      v ← py_get slide_data "title" (PyStr EmptyString);
      s ← as_text v;
      Ok (alter_shape (set_shape_text s) i slide)
  | None => Ok slide
  end.

(** Lines 106-109: one more bullet. *)
Definition add_bullet (item : pyval) (tf : TextBody) : result TextBody :=
  let tf := add_paragraph tf in
  s ← as_text item;
  let tf := alter_last_p (set_p_text s) tf in
  Ok (alter_last_p (set_p_level 0) tf).

(** Lines 100-109: the content items written into the cleared text frame. *)
Definition fill_text_frame (slide_data : pyval) (tf : TextBody) : result TextBody :=
  content_items ← py_get slide_data "content" (PyList []);
  if truthy content_items then
    first ← py_getitem0 content_items;
    s ← as_text first;
    let tf := alter_first_p (set_p_text s) tf in
    rest ← py_slice_from1 content_items;
    items ← py_iter rest;
    for_each add_bullet items tf
  else Ok tf.

(** Lines 89-109: the first placeholder whose idx is 1, if any, is cleared and
    filled. *)
Definition fill_body (slide_data : pyval) (slide : Slide) : result Slide :=
  match list_find (has_idx 1) (shapes slide) with
  | Some (j, content_placeholder) =>
      let tf := clear (text_frame content_placeholder) in
      tf ← fill_text_frame slide_data tf;
      Ok (alter_shape (with_text_frame tf) j slide)
  | None => Ok slide
  end.

(** Lines 83-109: the body of the loop over the outline's entries. *)
Definition add_outline_slide (title_and_content_layout : SlideLayout)
    (slide_data : pyval) (prs : Presentation) : result Presentation :=
  let slide := clone_layout_placeholders title_and_content_layout in
  slide ← fill_title slide_data slide;
  slide ← fill_body slide_data slide;
  Ok (append_slide slide prs).

(** [prs.slide_layouts[n]] *)
Definition slide_layouts_getitem (prs : Presentation) (n : nat) : result SlideLayout :=
  match slide_layouts prs !! n with
  | Some layout => Ok layout
  | None => Raise (pptx_layout_error n)
  end.

(** Lines 82-109: the loop, on a presentation that is already open. *)
Definition render_outline (llm_output_json : pyval) (prs : Presentation)
  : result Presentation :=
  title_and_content_layout ← slide_layouts_getitem prs 1;
  slides_value ← py_get llm_output_json "slides" (PyList []);
  entries ← py_iter slides_value;
  for_each (add_outline_slide title_and_content_layout) entries prs.

(** Lines 112-115: the presentation saved to a fresh stream, rewound. *)
Definition save_to_stream (prs : Presentation) : BytesIO :=
  let ppt_stream := BytesIO_new in
  let ppt_stream := BytesIO_write (pptx_save prs) ppt_stream in
  BytesIO_seek 0 ppt_stream.

(** The body of the [try] of [create_presentation]. *)
Definition create_presentation_try (llm_output_json : pyval)
    (template_file : UploadedFile) : result BytesIO :=
  prs ← pptx_Presentation template_file;
  prs ← render_outline llm_output_json prs;
  Ok (save_to_stream prs).

Definition create_presentation (llm_output_json : pyval)
    (template_file : UploadedFile) : App (option BytesIO) :=
  emit (TemplateOpened template_file);;
  match create_presentation_try llm_output_json template_file with
  | Ok ppt_stream => mret (Some ppt_stream)
  | Raise e =>
      st_error ("Failed to create presentation file: " +:+ exn_str e);;
      mret None
  end.

(** Lines 152-178: what a click on the button runs.  A text input is a str,
    the uploader gives a file or [None]. *)
Definition on_generate (raw_text guidance api_key : string)
    (uploaded_template : option UploadedFile) : App unit :=
  if negb (truthy (PyStr raw_text)) then
    st_error "Please paste your text content in Step 1."
  else if negb (truthy (PyStr api_key)) then
    st_error "Please enter your API key in Step 3."
  else
    match uploaded_template with
    | None => st_error "Please upload a PowerPoint template in Step 4."
    | Some template_file =>
        st_spinner "Generating slide content with AI... 🧠";;
        llm_output ← generate_slide_content api_key raw_text guidance;
        if truthy llm_output then
          st_success "✅ Content structure generated!";;
          st_spinner "Creating your presentation... 🎨";;
          generated_ppt_stream ← create_presentation llm_output template_file;
          match generated_ppt_stream with
          | Some ppt_stream =>
              st_success "✅ Presentation created!";;
              st_download_button "📥 Download Presentation" ppt_stream
                "generated_presentation.pptx"
                "application/vnd.openxmlformats-officedocument.presentationml.presentation"
                true
          | None => mret ()
          end
        else mret ()
    end.

(** Line 152: the handler runs on the rerun the button triggers. *)
Definition script (generate_button : bool) (raw_text guidance api_key : string)
    (uploaded_template : option UploadedFile) : App unit :=
  if generate_button then on_generate raw_text guidance api_key uploaded_template
  else mret ().

End Script.

(* ===================================================================== *)
(** ** Vocabulary of the properties                                        *)
(* ===================================================================== *)

(** The placeholder the script takes for the body of a slide, and the one
    python-pptx takes for its title. *)
Definition body_placeholder (sl : Slide) : option Shape :=
  snd <$> list_find (has_idx 1) (shapes sl).

Definition title_placeholder (sl : Slide) : option Shape :=
  snd <$> shapes_title sl.

(** A paragraph at level 0 that reads [s]. *)
Definition bullet (s : string) : Paragraph := {| p_text := s; p_level := 0 |}.

(** The paragraph the script writes for one content string. *)
Definition stored_bullet (s : string) : Paragraph := bullet (paragraph_text s).

(** The title and the content strings of a slide entry, with the defaults of
    the two [get] calls. *)
Definition title_string (slide_data : pyval) : string :=
  match slide_data with
  | PyDict d =>
      match d !! "title" with
      | Some (PyStr s) => s
      | _ => EmptyString
      end
  | _ => EmptyString
  end.

Definition str_of (v : pyval) : option string :=
  match v with PyStr s => Some s | _ => None end.

Definition content_strings (slide_data : pyval) : list string :=
  match slide_data with
  | PyDict d =>
      match d !! "content" with
      | Some (PyList items) => omap str_of items
      | _ => []
      end
  | _ => []
  end.

(** What rendering amounts to for a well-formed entry, as functions of the
    title and of the content strings: the title shape gets the title, the body
    shape gets one paragraph per string (one empty paragraph for none). *)
Definition with_title (t : string) (sl : Slide) : Slide :=
  match shapes_title sl with
  | Some (i, _) => alter_shape (set_shape_text t) i sl
  | None => sl
  end.

Definition write_items (cs : list string) (tf : TextBody) : TextBody :=
  match cs with
  | [] => tf
  | c :: rest =>
      {| first_p := set_p_text c (first_p tf);
         more_p := more_p tf ++ (stored_bullet <$> rest) |}
  end.

Definition with_body (cs : list string) (sl : Slide) : Slide :=
  match list_find (has_idx 1) (shapes sl) with
  | Some (j, sh) =>
      alter_shape (with_text_frame (write_items cs (clear (text_frame sh)))) j sl
  | None => sl
  end.

Definition expected_slide (layout : SlideLayout) (slide_data : pyval) : Slide :=
  with_body (content_strings slide_data)
    (with_title (title_string slide_data) (clone_layout_placeholders layout)).

Definition is_str (v : pyval) : bool :=
  match v with PyStr _ => true | _ => false end.

(** A str the text setters accept. *)
Definition is_text (v : pyval) : bool :=
  match v with PyStr s => text_accepted s | _ => false end.

Definition is_dict (v : pyval) : bool :=
  match v with PyDict _ => true | _ => false end.

(** A slide entry whose title, when it has one, is a string the text setters
    accept. *)
Definition title_ok (slide_data : pyval) : bool :=
  match slide_data with
  | PyDict d =>
      match d !! "title" with
      | None => true
      | Some v => is_text v
      end
  | _ => false
  end.

(** A slide entry whose content, when it has one, is a list of strings the text
    setters accept. *)
Definition content_ok (slide_data : pyval) : bool :=
  match slide_data with
  | PyDict d =>
      match d !! "content" with
      | None => true
      | Some (PyList items) => forallb is_text items
      | Some _ => false
      end
  | _ => false
  end.

(** A slide descriptor of the data model that can be rendered: an object with a
    string title and a list of content strings (either key may be left out),
    the strings free of the characters XML cannot hold. *)
Definition slide_descriptor (slide_data : pyval) : bool :=
  title_ok slide_data && content_ok slide_data.

(** The reply shape the prompt asks for: an object with a "slides" list whose
    entries each have a string "title" and a "content" list of strings. *)
Definition expected_entry (slide_data : pyval) : bool :=
  match slide_data with
  | PyDict d =>
      match d !! "title", d !! "content" with
      | Some (PyStr _), Some (PyList items) => forallb is_str items
      | _, _ => false
      end
  | _ => false
  end.

Definition expected_shape (v : pyval) : bool :=
  match v with
  | PyDict d =>
      match d !! "slides" with
      | Some (PyList entries) => forallb expected_entry entries
      | _ => false
      end
  | _ => false
  end.

(** The required fields of the form, in the order the handler checks them. *)
Inductive field : Set := FText | FCredential | FTemplate.

Definition field_missing (raw_text api_key : string)
    (uploaded_template : option UploadedFile) (f : field) : bool :=
  match f with
  | FText => negb (truthy (PyStr raw_text))
  | FCredential => negb (truthy (PyStr api_key))
  | FTemplate => match uploaded_template with None => true | Some _ => false end
  end.

Definition missing_fields (raw_text api_key : string)
    (uploaded_template : option UploadedFile) : list field :=
  List.filter (field_missing raw_text api_key uploaded_template)
    [FText; FCredential; FTemplate].

(** The position of a field in that order. *)
Definition check_order (f : field) : nat :=
  match f with FText => 0 | FCredential => 1 | FTemplate => 2 end.

(** The message of lines 155, 157 and 159 that names the field. *)
Definition missing_message (f : field) : string :=
  match f with
  | FText => "Please paste your text content in Step 1."
  | FCredential => "Please enter your API key in Step 3."
  | FTemplate => "Please upload a PowerPoint template in Step 4."
  end.

(** Traces of a run: the generator sends a request as soon as it runs, the
    renderer opens the template as soon as it runs. *)
Definition is_request (e : event) : bool :=
  match e with ChatRequestSent _ _ => true | _ => false end.
Definition is_template_open (e : event) : bool :=
  match e with TemplateOpened _ => true | _ => false end.
Definition is_error (e : event) : bool :=
  match e with StError _ => true | _ => false end.
Definition is_download (e : event) : bool :=
  match e with StDownloadButton _ _ _ _ _ => true | _ => false end.

(** A failed call of the renderer: the template was opened, one error is
    shown with the text of some exception, nothing is returned. *)
Definition render_failed (f : UploadedFile) (g : Globals)
    (r : option BytesIO * Globals * list event) : Prop :=
  ∃ e : exn,
    r = (None, g, [TemplateOpened f;
                   StError ("Failed to create presentation file: " +:+ exn_str e)]).

Definition generator_ran (es : list event) : bool := existsb is_request es.
Definition renderer_ran (es : list event) : bool := existsb is_template_open es.
Definition error_shown (es : list event) : bool := existsb is_error es.
Definition download_offered (es : list event) : bool := existsb is_download es.

(* ===================================================================== *)
(** ** Concrete templates, replies and library stand-ins for the examples  *)
(* ===================================================================== *)

Module Fixture.

Definition ph (n : nat) (t : PP_PLACEHOLDER) : PlaceholderFormat :=
  {| idx := n; type := t |}.

(** The first two layouts of python-pptx's default template, and two more. *)
Definition title_slide : SlideLayout :=
  {| layout_placeholders :=
       [ph 0 CENTER_TITLE; ph 1 SUBTITLE; ph 10 DATE; ph 11 FOOTER; ph 12 SLIDE_NUMBER] |}.
Definition title_and_content : SlideLayout :=
  {| layout_placeholders :=
       [ph 0 TITLE; ph 1 OBJECT; ph 10 DATE; ph 11 FOOTER; ph 12 SLIDE_NUMBER] |}.
Definition title_only : SlideLayout :=
  {| layout_placeholders := [ph 0 TITLE; ph 10 DATE; ph 11 FOOTER; ph 12 SLIDE_NUMBER] |}.

Definition cover : Slide :=
  {| shapes := [ {| placeholder_format := Some (ph 0 CENTER_TITLE);
                    txBody := Some {| first_p := bullet "Cover"; more_p := [] |} |} ] |}.

Definition two_layouts : Presentation :=
  {| slide_layouts := [title_slide; title_and_content]; slides := [cover] |}.
Definition one_layout : Presentation :=
  {| slide_layouts := [title_slide]; slides := [cover] |}.
Definition no_body_layout : Presentation :=
  {| slide_layouts := [title_slide; title_only]; slides := [cover] |}.

Definition upload (name : string) : UploadedFile :=
  {| upload_name := name; upload_bytes := [] |}.

(** Stand-in for [Presentation(f)]: three known files, anything else is no
    package. *)
Definition stub_open (f : UploadedFile) : result Presentation :=
  if String.eqb (upload_name f) "two_layouts.pptx" then Ok two_layouts
  else if String.eqb (upload_name f) "one_layout.pptx" then Ok one_layout
  else if String.eqb (upload_name f) "no_body.pptx" then Ok no_body_layout
  else Raise (Exception "PackageNotFoundError" "Package not found").

(** Stand-in for [prs.save]: a header and one byte per slide. *)
Definition stub_save (prs : Presentation) : list byte :=
  [x50; x4b] ++ replicate (length (slides prs)) x01.

(** The outline of the end-to-end scenario and replies of a wrong shape. *)
Definition overview_entry : gmap string pyval :=
  <[ "title" := PyStr "Overview" ]>
    {[ "content" := PyList (PyStr <$> ["Alpha"; "Beta"; "Gamma"]) ]}.
Definition overview_dict : gmap string pyval :=
  {[ "slides" := PyList [PyDict overview_entry] ]}.
Definition overview : pyval := PyDict overview_dict.
Definition overview_text : string :=
  "{" +:+ quoted "slides" +:+ ":[{" +:+ quoted "title" +:+ ":" +:+ quoted "Overview"
  +:+ "," +:+ quoted "content" +:+ ":[" +:+ quoted "Alpha" +:+ "," +:+ quoted "Beta"
  +:+ "," +:+ quoted "Gamma" +:+ "]}]}".

Definition no_slides_key : pyval := PyDict {[ "deck" := PyList [] ]}.
Definition no_slides_key_text : string := "{" +:+ quoted "deck" +:+ ":[]}".

Definition bare_entry_dict : gmap string pyval := {[ "slides" := PyList [PyDict ∅] ]}.
Definition bare_entry : pyval := PyDict bare_entry_dict.

Definition empty_content_dict : gmap string pyval :=
  {[ "slides" := PyList [PyDict {[ "content" := PyList [] ]}] ]}.
Definition no_entries_dict : gmap string pyval := {[ "slides" := PyList [] ]}.
Definition bare_entry_text : string := "{" +:+ quoted "slides" +:+ ":[{}]}".

Definition number_entry : pyval := PyDict {[ "slides" := PyList [PyInt 5] ]}.

(** Stand-in for [json.loads] on the texts above and four falsy literals. *)
Definition stub_loads (s : string) : result pyval :=
  if String.eqb s "{}" then Ok (PyDict ∅)
  else if String.eqb s "null" then Ok PyNone
  else if String.eqb s "[]" then Ok (PyList [])
  else if String.eqb s "0" then Ok (PyInt 0)
  else if String.eqb s overview_text then Ok overview
  else if String.eqb s no_slides_key_text then Ok no_slides_key
  else if String.eqb s bare_entry_text then Ok bare_entry
  else Raise (Exception "JSONDecodeError" "Expecting value: line 1 column 1 (char 0)").

Definition reply_with (text : string) : result ChatCompletion :=
  Ok {| choices := [ {| message_content := Some text |} ] |}.

(** The libraries, with a service that answers [reply] to every request. *)
Definition stub (reply : result ChatCompletion) : Externals :=
  {| chat_completions_create := λ _ _, reply;
     json_loads := stub_loads;
     pptx_Presentation := stub_open;
     pptx_save := stub_save;
     pptx_text_error := λ v, TypeError ("expected str, got " +:+ type_name v);
     pptx_layout_error := λ _, Exception "IndexError" "slide layout index out of range" |}.

(** The libraries of the end-to-end scenario. *)
Definition libs : Externals := stub (reply_with overview_text).

Definition g0 : Globals := {| openai_api_key := None |}.

End Fixture.

(* ===================================================================== *)
(** ** Further vocabulary and stand-ins                                    *)
(* ===================================================================== *)

(** Closes the goals that count the events of a run whose shape is known. *)
Ltac count_events :=
  repeat split; first [done | vm_compute; lia | vm_compute; done].

Module MoreFixture.

(** A layout whose slides have a body but no title. *)
Definition body_only : SlideLayout :=
  {| layout_placeholders := [Fixture.ph 1 BODY; Fixture.ph 12 SLIDE_NUMBER] |}.
Definition body_only_template : Presentation :=
  {| slide_layouts := [Fixture.title_slide; body_only]; slides := [Fixture.cover] |}.

(** Libraries with a service that answers [reply], a parser that returns
    [parsed] and a reader that returns [opened], whatever they are given. *)
Definition libs_with (reply : result ChatCompletion) (parsed : result pyval)
    (opened : result Presentation) : Externals :=
  {| chat_completions_create := λ _ _, reply;
     json_loads := λ _, parsed;
     pptx_Presentation := λ _, opened;
     pptx_save := Fixture.stub_save;
     pptx_text_error := λ v, TypeError ("expected str, got " +:+ type_name v);
     pptx_layout_error := λ _, Exception "IndexError" "slide layout index out of range" |}.

(** An entry with a null title, one with a number among its content items, one
    whose content is a string, one whose content is null, one whose title is a
    number. *)
Definition null_title : gmap string pyval :=
  <[ "title" := PyNone ]> {[ "content" := PyList [PyStr "Alpha"] ]}.
Definition mixed_content : gmap string pyval :=
  <[ "title" := PyStr "Overview" ]> {[ "content" := PyList [PyStr "Alpha"; PyInt 2] ]}.
Definition string_content : gmap string pyval :=
  <[ "title" := PyStr "Overview" ]> {[ "content" := PyStr "abc" ]}.
Definition null_content : gmap string pyval :=
  <[ "title" := PyStr "Overview" ]> {[ "content" := PyNone ]}.
Definition number_title : gmap string pyval :=
  <[ "title" := PyInt 7 ]> {[ "content" := PyList [PyStr "Alpha"] ]}.

Definition outline_of (entry : gmap string pyval) : gmap string pyval :=
  {[ "slides" := PyList [PyDict Fixture.overview_entry; PyDict entry] ]}.

(** The globals after an earlier run under another key. *)
Definition stale : Globals := {| openai_api_key := Some "sk-old" |}.

(** U+FFFF in a title and in a content string. *)
Definition noncharacter : string :=
  String (ascii_of_nat 239) (String (ascii_of_nat 191) (String (ascii_of_nat 191) EmptyString)).
Definition refused_text : string := "A" +:+ noncharacter +:+ "B".
Definition refused_title : gmap string pyval :=
  <[ "title" := PyStr refused_text ]> {[ "content" := PyList [] ]}.
Definition refused_content : gmap string pyval :=
  <[ "title" := PyStr "Overview" ]> {[ "content" := PyList [PyStr refused_text] ]}.
Definition one_entry (entry : gmap string pyval) : gmap string pyval :=
  {[ "slides" := PyList [PyDict entry] ]}.

(** A content string with a line feed, an escape and a carriage return. *)
Definition control_text : string :=
  "a" +:+ String (ascii_of_nat 10) "b" +:+ String (ascii_of_nat 27) "c"
  +:+ String (ascii_of_nat 13) "d".
Definition control_content : gmap string pyval :=
  <[ "title" := PyStr "Overview" ]> {[ "content" := PyList [PyStr control_text] ]}.

(** A content that is the string n, e-acute (three bytes, two characters). *)
Definition accented : string :=
  String "n" (String (ascii_of_nat 195) (String (ascii_of_nat 169) EmptyString)).
Definition accented_content : gmap string pyval :=
  <[ "title" := PyStr "Overview" ]> {[ "content" := PyStr accented ]}.

(** The exception lxml raises on a str XML cannot hold. *)
Definition xml_error : exn :=
  Exception "ValueError"
    "All strings must be XML compatible: Unicode or ASCII, no NULL bytes or control characters".

(** Libraries whose reader returns [opened] and whose text setters raise the
    error of lxml on a str and a type error on anything else. *)
Definition libs_xml (opened : result Presentation) : Externals :=
  {| chat_completions_create := λ _ _, Fixture.reply_with Fixture.overview_text;
     json_loads := Fixture.stub_loads;
     pptx_Presentation := λ _, opened;
     pptx_save := Fixture.stub_save;
     pptx_text_error := λ v, if is_str v then xml_error
                             else TypeError ("expected str, got " +:+ type_name v);
     pptx_layout_error := λ _, Exception "IndexError" "slide layout index out of range" |}.

End MoreFixture.

(* ===================================================================== *)
(** ** Facts about the library models                                      *)
(* ===================================================================== *)

(** Altering one element of a list with a function that keeps [P] moves no
    match: [list_find] returns the same position, with the altered element when
    it is the one found. *)
Section ListFacts.
Context {A : Type} (P : A → Prop) `{!∀ x, Decision (P x)}.

Lemma list_find_alter_preserving (f : A → A) (i : nat) (l : list A) :
  (∀ x, P (f x) ↔ P x) →
  list_find P (alter f i l)
  = (λ jx : nat * A, (jx.1, if decide (jx.1 = i) then f jx.2 else jx.2)) <$> list_find P l.
Proof.
  intros Hf. revert i. induction l as [|y l IH]; intros i; [done|].
  destruct i as [|i]; cbn.
  - destruct (decide (P (f y))) as [Hy|Hy], (decide (P y)) as [Hy'|Hy']; cbn;
      [done | exfalso; apply Hy', Hf, Hy | exfalso; apply Hy, Hf, Hy' |].
    destruct (list_find P l) as [[j x]|]; cbn; [|done].
    by rewrite decide_False by lia.
  - destruct (decide (P y)); cbn; [done|].
    rewrite IH. destruct (list_find P l) as [[j x]|]; cbn; [|done].
    destruct (decide (j = i)); [rewrite decide_True by lia|rewrite decide_False by lia]; done.
Qed.

End ListFacts.

Lemma fmap_alter_preserved {A B} (proj : A → B) (f : A → A) i (l : list A) :
  (∀ x, proj (f x) = proj x) → proj <$> alter f i l = proj <$> l.
Proof.
  intros Hf. revert i. induction l as [|x l IH]; intros [|i]; cbn; [done..| |].
  - by rewrite Hf.
  - f_equal. apply IH.
Qed.

Lemma forallb_elem_of {A} (p : A → bool) (l : list A) x :
  forallb p l = true → x ∈ l → p x = true.
Proof.
  rewrite forallb_forall. intros Hall Hx. apply Hall. by apply list_elem_of_In.
Qed.

Lemma for_each_cons {A S} (body : A → S → result S) x rest s :
  for_each body (x :: rest) s = body x s ≫= for_each body rest.
Proof. done. Qed.

Lemma for_each_raises {A S} (body : A → S → result S) (x : A) (items : list A) :
  (∀ s, ∃ err, body x s = Raise err) →
  x ∈ items →
  ∀ s, ∃ err, for_each body items s = Raise err.
Proof.
  intros Hx. induction items as [|y items IH]; intros Hin s.
  - by apply elem_of_nil in Hin.
  - rewrite for_each_cons. apply elem_of_cons in Hin as [<-|Hin].
    + destruct (Hx s) as [err ->]. by exists err.
    + destruct (body y s) as [s'|err]; [|by exists err]. by apply IH.
Qed.

(** *** Characters *)

Lemma append_cons (b : ascii) (s t : string) : String b s +:+ t = String b (s +:+ t).
Proof. done. Qed.

Lemma append_empty_l (t : string) : EmptyString +:+ t = t.
Proof. done. Qed.

Lemma append_empty_r (s : string) : s +:+ EmptyString = s.
Proof. induction s as [|b s IH]; [done|]. by rewrite append_cons, IH. Qed.

Lemma append_String_assoc (s : string) (b : ascii) (t : string) :
  (s +:+ String b EmptyString) +:+ t = s +:+ String b t.
Proof. induction s as [|c s IH]; [done|]. by rewrite !append_cons, IH. Qed.

Lemma utf8_chars_skip (s : string) :
  match s with
  | EmptyString => True
  | String b _ => is_continuation b = false
  end →
  utf8_chars (skip_continuation s) = utf8_chars s.
Proof. destruct s as [|b s]; [done|]. cbn. by intros ->. Qed.

Lemma utf8_chars_from_split (current s : string) :
  utf8_chars_from current s
  = (current +:+ take_continuation s) :: utf8_chars (skip_continuation s).
Proof.
  revert current. induction s as [|b s IH]; intros current; cbn.
  - by rewrite append_empty_r.
  - destruct (is_continuation b) eqn:Hb.
    + by rewrite IH, append_String_assoc.
    + by rewrite append_empty_r.
Qed.

(** The characters of a non-empty str: the first one, then those of the rest. *)
Lemma utf8_chars_cons (b : ascii) (rest : string) :
  utf8_chars (String b rest)
  = utf8_head (String b rest) :: utf8_chars (utf8_tail (String b rest)).
Proof. cbn. by rewrite utf8_chars_from_split. Qed.

(** *** Stored text *)

Lemma stored_byte_plain (b : ascii) :
  plain_byte b = true → stored_byte b = String b EmptyString.
Proof.
  unfold plain_byte, stored_byte.
  by destruct (is_line_break b), (is_escaped b).
Qed.

Lemma paragraph_text_plain (s : string) : plain_text s = true → paragraph_text s = s.
Proof.
  induction s as [|b s IH]; [done|]. unfold plain_text; cbn.
  intros [Hb Hs]%andb_prop.
  by rewrite stored_byte_plain, IH, append_cons, append_empty_l.
Qed.

Lemma split_newline_plain (s : string) : plain_text s = true → split_newline s = [s].
Proof.
  induction s as [|b s IH]; [done|]. unfold plain_text; cbn.
  intros [Hb Hs]%andb_prop. rewrite IH by done.
  destruct (Ascii.eqb b (ascii_of_nat 10)) eqn:Heq; [|done].
  apply Ascii.eqb_eq in Heq as ->. done.
Qed.

Lemma paragraphs_set_text s tf :
  paragraphs (set_text s tf) = stored_bullet <$> split_newline s.
Proof.
  unfold set_text. destruct s as [|c s]; [done|]. cbn.
  destruct (Ascii.eqb c _); [done|]. by destruct (split_newline s).
Qed.

(** *** Text frames and placeholders *)

Lemma alter_last_p_snoc f p0 m p :
  alter_last_p f {| first_p := p0; more_p := m ++ [p] |}
  = {| first_p := p0; more_p := m ++ [f p] |}.
Proof.
  unfold alter_last_p; cbn.
  destruct (m ++ [p]) as [|q qs] eqn:E.
  - by destruct m.
  - rewrite <- E. f_equal. rewrite length_app; cbn.
    replace (pred (length m + 1)) with (length m + 0) by lia.
    by rewrite alter_app_r.
Qed.

Lemma text_frame_with_text_frame tf sh : text_frame (with_text_frame tf sh) = tf.
Proof. done. Qed.

Lemma has_idx_set_shape_text n s sh : has_idx n (set_shape_text s sh) ↔ has_idx n sh.
Proof. done. Qed.

Lemma has_idx_with_text_frame n tf sh : has_idx n (with_text_frame tf sh) ↔ has_idx n sh.
Proof. done. Qed.

Lemma fresh_text_frame layout sh :
  sh ∈ shapes (clone_layout_placeholders layout) → text_frame sh = new_txBody.
Proof.
  cbn. intros (p & -> & _)%list_elem_of_fmap.
  unfold clone_placeholder, text_frame; cbn. by destruct (has_text_frame _).
Qed.

Lemma body_placeholder_with_title t sl :
  body_placeholder (with_title t sl) = body_placeholder sl.
Proof.
  unfold body_placeholder, with_title, shapes_title.
  destruct (list_find (has_idx 0) (shapes sl)) as [[i x]|] eqn:Ht; [|done]. cbn.
  rewrite list_find_alter_preserving by apply has_idx_set_shape_text.
  destruct (list_find (has_idx 1) (shapes sl)) as [[j y]|] eqn:Hb; [|done]. cbn.
  apply list_find_Some in Ht as (Hi & Hx & _), Hb as (Hj & Hy & _).
  rewrite decide_False; [done|]. intros ->.
  unfold has_idx in *. congruence.
Qed.

Lemma body_placeholder_with_body cs sl sh :
  body_placeholder sl = Some sh →
  body_placeholder (with_body cs sl)
  = Some (with_text_frame (write_items cs (clear (text_frame sh))) sh).
Proof.
  unfold body_placeholder, with_body.
  destruct (list_find (has_idx 1) (shapes sl)) as [[j y]|] eqn:Hb; [|done]. cbn.
  intros [= ->].
  rewrite list_find_alter_preserving by (intros; apply has_idx_with_text_frame).
  rewrite Hb; cbn. by rewrite decide_True.
Qed.

Lemma body_placeholder_elem_of sl sh : body_placeholder sl = Some sh → sh ∈ shapes sl.
Proof.
  unfold body_placeholder.
  destruct (list_find _ _) as [[j y]|] eqn:Hb; [|done]. cbn. intros [= ->].
  apply list_find_Some in Hb as (Hj & _). by eapply list_elem_of_lookup_2.
Qed.

Lemma title_placeholder_with_title t sl sh :
  title_placeholder sl = Some sh →
  title_placeholder (with_title t sl) = Some (set_shape_text t sh).
Proof.
  unfold title_placeholder, with_title, shapes_title.
  destruct (list_find (has_idx 0) (shapes sl)) as [[i x]|] eqn:Ht; [|done]. cbn.
  intros [= ->].
  rewrite list_find_alter_preserving by apply has_idx_set_shape_text.
  rewrite Ht; cbn. by rewrite decide_True.
Qed.

Lemma title_placeholder_with_body cs sl :
  title_placeholder (with_body cs sl) = title_placeholder sl.
Proof.
  unfold title_placeholder, with_body, shapes_title.
  destruct (list_find (has_idx 1) (shapes sl)) as [[j y]|] eqn:Hb; [|done]. cbn.
  rewrite list_find_alter_preserving by (intros; apply has_idx_with_text_frame).
  destruct (list_find (has_idx 0) (shapes sl)) as [[i x]|] eqn:Ht; [|done]. cbn.
  apply list_find_Some in Ht as (Hi & Hx & _), Hb as (Hj & Hy & _).
  rewrite decide_False; [done|]. intros ->.
  unfold has_idx in *. congruence.
Qed.

Lemma paragraphs_write_items_fresh cs :
  paragraphs (write_items cs (clear new_txBody))
  = match cs with [] => [empty_paragraph] | _ => stored_bullet <$> cs end.
Proof. by destruct cs. Qed.

Lemma expected_slide_body layout e sh :
  body_placeholder (clone_layout_placeholders layout) = Some sh →
  body_placeholder (expected_slide layout e)
  = Some (with_text_frame (write_items (content_strings e) (clear new_txBody)) sh).
Proof.
  intros Hsh. unfold expected_slide.
  erewrite body_placeholder_with_body by (by rewrite body_placeholder_with_title).
  by rewrite (fresh_text_frame layout sh) by (by eapply body_placeholder_elem_of).
Qed.

(* ===================================================================== *)
(** ** The loop body                                                       *)
(* ===================================================================== *)

Section Facts.
Context `{Externals}.

Lemma add_bullet_text s tf :
  text_accepted s = true →
  add_bullet (PyStr s) tf
  = Ok {| first_p := first_p tf; more_p := more_p tf ++ [stored_bullet s] |}.
Proof.
  intros Hs. unfold add_bullet, add_paragraph, as_text. rewrite Hs; cbn.
  by rewrite !alter_last_p_snoc.
Qed.

Lemma for_each_add_bullet cs tf :
  forallb text_accepted cs = true →
  for_each add_bullet (PyStr <$> cs) tf
  = Ok {| first_p := first_p tf; more_p := more_p tf ++ (stored_bullet <$> cs) |}.
Proof.
  revert tf. induction cs as [|c cs IH]; intros tf Hcs.
  - cbn. rewrite app_nil_r. by destruct tf.
  - cbn in Hcs. apply andb_prop in Hcs as [Hc Hcs].
    rewrite fmap_cons, for_each_cons, add_bullet_text by done; cbn.
    rewrite IH by done; cbn. by rewrite <- app_assoc.
Qed.

Lemma items_are_texts items :
  forallb is_text items = true →
  items = PyStr <$> omap str_of items
  ∧ forallb text_accepted (omap str_of items) = true.
Proof.
  induction items as [|v items IH]; [done|]; cbn.
  intros [Hv Hitems]%andb_prop. destruct v; try discriminate; cbn.
  destruct (IH Hitems) as [<- ->]. cbn in Hv. by rewrite Hv.
Qed.

Lemma fill_text_frame_ok e tf :
  content_ok e = true →
  fill_text_frame e tf = Ok (write_items (content_strings e) tf).
Proof.
  destruct e as [| | | | |?|d]; try discriminate; unfold content_ok, content_strings.
  unfold fill_text_frame, py_get. destruct (d !! "content") as [v|]; [|done].
  destruct v as [| | | | |items|]; try discriminate. intros Hitems.
  destruct (items_are_texts items Hitems) as [Heq Hok].
  set (cs := omap str_of items) in *. clearbody cs. subst items.
  destruct cs as [|c rest]; [done|]. cbn in Hok.
  apply andb_prop in Hok as [Hc Hrest]. cbn -[for_each]. unfold as_text. rewrite Hc.
  cbn -[for_each]. rewrite for_each_add_bullet; done.
Qed.

Lemma fill_title_ok e sl :
  title_ok e = true → fill_title e sl = Ok (with_title (title_string e) sl).
Proof.
  destruct e as [| | | | |?|d]; try discriminate; unfold title_ok, title_string.
  unfold fill_title, with_title, py_get.
  destruct (shapes_title sl) as [[i ?]|]; [|done].
  destruct (d !! "title") as [v|]; [|done].
  destruct v; try discriminate. cbn. by intros ->.
Qed.

Lemma fill_body_ok e sl :
  content_ok e = true → fill_body e sl = Ok (with_body (content_strings e) sl).
Proof.
  intros He. unfold fill_body, with_body.
  destruct (list_find (has_idx 1) (shapes sl)) as [[j sh]|]; [|done].
  by rewrite fill_text_frame_ok.
Qed.

Lemma fill_body_absent e sl :
  body_placeholder sl = None → fill_body e sl = Ok sl.
Proof.
  unfold body_placeholder, fill_body.
  by destruct (list_find (has_idx 1) (shapes sl)) as [[j sh]|].
Qed.

Lemma add_outline_slide_ok layout e prs :
  slide_descriptor e = true →
  add_outline_slide layout e prs = Ok (append_slide (expected_slide layout e) prs).
Proof.
  intros [Ht Hc]%andb_prop. unfold add_outline_slide, expected_slide.
  rewrite fill_title_ok by done; cbn. by rewrite fill_body_ok.
Qed.

Lemma for_each_appends layout (rendered : pyval → Slide) entries prs :
  (∀ e prs, e ∈ entries →
     add_outline_slide layout e prs = Ok (append_slide (rendered e) prs)) →
  for_each (add_outline_slide layout) entries prs
  = Ok {| slide_layouts := slide_layouts prs;
          slides := slides prs ++ (rendered <$> entries) |}.
Proof.
  revert prs. induction entries as [|e entries IH]; intros prs Hall.
  - cbn. rewrite app_nil_r. by destruct prs.
  - rewrite for_each_cons, Hall by left; cbn.
    rewrite IH by (intros; apply Hall; by right); cbn.
    by rewrite <- app_assoc.
Qed.

Lemma fill_title_inv e sl sl' :
  fill_title e sl = Ok sl' → ∃ t, sl' = with_title t sl.
Proof.
  unfold fill_title, with_title.
  destruct (shapes_title sl) as [[i sh]|]; [|intros [= <-]; by exists EmptyString].
  destruct (py_get e "title" (PyStr EmptyString)) as [v|]; [|done]. cbn.
  destruct (as_text v) as [s|]; [|done]. cbn. intros [= <-]. by eexists.
Qed.

Lemma fill_body_items e sl cs :
  (∀ tf, fill_text_frame e tf = Ok (write_items cs tf)) →
  fill_body e sl = Ok (with_body cs sl).
Proof.
  intros He. unfold fill_body, with_body.
  destruct (list_find (has_idx 1) (shapes sl)) as [[j sh]|]; [|done].
  by rewrite He.
Qed.

Lemma fill_body_inv e sl sl' :
  fill_body e sl = Ok sl' →
  sl' = sl
  ∨ ∃ j sh tf, list_find (has_idx 1) (shapes sl) = Some (j, sh)
               ∧ sl' = alter_shape (with_text_frame tf) j sl.
Proof.
  unfold fill_body.
  destruct (list_find (has_idx 1) (shapes sl)) as [[j sh]|]; [|intros [= <-]; by left].
  destruct (fill_text_frame e _) as [tf|]; [|done]. cbn.
  intros [= <-]. right. by eexists _, _, _.
Qed.

Lemma add_outline_slide_inv layout e prs prs' :
  add_outline_slide layout e prs = Ok prs' →
  ∃ sl1 slide,
    fill_title e (clone_layout_placeholders layout) = Ok sl1
    ∧ fill_body e sl1 = Ok slide
    ∧ prs' = append_slide slide prs.
Proof.
  unfold add_outline_slide.
  destruct (fill_title e _) as [sl1|]; [|done]. cbn.
  destruct (fill_body e sl1) as [slide|] eqn:Hb; [|done]. cbn.
  intros [= <-]. by exists sl1, slide.
Qed.

Lemma for_each_add_outline_slide_inv layout entries prs prs' :
  for_each (add_outline_slide layout) entries prs = Ok prs' →
  slide_layouts prs' = slide_layouts prs
  ∧ ∃ new, slides prs' = slides prs ++ new ∧ length new = length entries.
Proof.
  revert prs. induction entries as [|e entries IH]; intros prs.
  - cbn. intros [= <-]. split; [done|]. exists []. by rewrite app_nil_r.
  - rewrite for_each_cons.
    destruct (add_outline_slide layout e prs) as [prs1|] eqn:He; [|done]. cbn.
    intros (Hl & new & Hs & Hn)%IH.
    apply add_outline_slide_inv in He as (sl1 & slide & _ & _ & ->).
    split; [done|]. exists (slide :: new). cbn in *.
    rewrite Hs, <- app_assoc. by rewrite Hn.
Qed.

(** The slide a completed loop has added for its n-th entry is the one the
    loop body made of that entry. *)
Lemma for_each_add_outline_slide_lookup layout entries prs prs' n e :
  for_each (add_outline_slide layout) entries prs = Ok prs' →
  entries !! n = Some e →
  ∃ sl1 slide,
    fill_title e (clone_layout_placeholders layout) = Ok sl1
    ∧ fill_body e sl1 = Ok slide
    ∧ slides prs' !! (length (slides prs) + n) = Some slide.
Proof.
  revert prs n. induction entries as [|e0 entries IH]; intros prs n; [done|].
  rewrite for_each_cons.
  destruct (add_outline_slide layout e0 prs) as [prs1|] eqn:He0; [|done]. cbn.
  intros Hrest Hn.
  apply add_outline_slide_inv in He0 as (sl1 & slide & Ht & Hb & ->).
  destruct n as [|n]; cbn in Hn.
  - injection Hn as <-. exists sl1, slide. split; [done|]. split; [done|].
    apply for_each_add_outline_slide_inv in Hrest as (_ & new & -> & _). cbn.
    rewrite <- app_assoc, lookup_app_r by lia.
    by replace (length (slides prs) + 0 - length (slides prs)) with 0 by lia.
  - destruct (IH _ n Hrest Hn) as (sl1' & slide' & Ht' & Hb' & Hlook).
    exists sl1', slide'. split; [done|]. split; [done|].
    cbn in Hlook. rewrite length_app in Hlook. cbn in Hlook.
    by replace (length (slides prs) + S n) with (length (slides prs) + 1 + n) by lia.
Qed.

Lemma add_outline_slide_bad_title layout (d : gmap string pyval) v prs :
  d !! "title" = Some v →
  is_str v = false →
  is_Some (title_placeholder (clone_layout_placeholders layout)) →
  ∃ err, add_outline_slide layout (PyDict d) prs = Raise err.
Proof.
  intros Hd Hv [sh Hsh]. unfold add_outline_slide, fill_title, py_get.
  unfold title_placeholder in Hsh.
  destruct (shapes_title _) as [[i x]|]; [|done]. rewrite Hd; cbn.
  destruct v; try discriminate; by eexists.
Qed.

Lemma add_bullet_not_str v tf : is_str v = false → ∃ err, add_bullet v tf = Raise err.
Proof. unfold add_bullet. destruct v; try discriminate; by eexists. Qed.

Lemma fill_text_frame_bad_item (d : gmap string pyval) items k v tf :
  d !! "content" = Some (PyList items) →
  items !! k = Some v →
  is_str v = false →
  ∃ err, fill_text_frame (PyDict d) tf = Raise err.
Proof.
  intros Hd Hk Hv. unfold fill_text_frame, py_get. rewrite Hd; cbn -[for_each].
  destruct items as [|x rest]; [done|]. cbn -[for_each].
  destruct k as [|k]; cbn in Hk.
  - injection Hk as ->. destruct v; try discriminate; by eexists.
  - destruct (as_text x) as [s|err]; [|by eexists]. cbn -[for_each].
    apply (for_each_raises add_bullet v).
    + intros s0. by apply add_bullet_not_str.
    + by eapply list_elem_of_lookup_2.
Qed.

Lemma add_outline_slide_bad_item layout (d : gmap string pyval) items k v prs :
  d !! "content" = Some (PyList items) →
  items !! k = Some v →
  is_str v = false →
  is_Some (body_placeholder (clone_layout_placeholders layout)) →
  ∃ err, add_outline_slide layout (PyDict d) prs = Raise err.
Proof.
  intros Hd Hk Hv [sh Hsh]. unfold add_outline_slide.
  destruct (fill_title (PyDict d) _) as [sl1|err] eqn:Ht; [|by eexists]. cbn.
  apply fill_title_inv in Ht as [t ->].
  unfold fill_body. rewrite <- (body_placeholder_with_title t) in Hsh.
  unfold body_placeholder in Hsh.
  destruct (list_find (has_idx 1) _) as [[j y]|]; [|done].
  destruct (fill_text_frame_bad_item d items k v (clear (text_frame y)) Hd Hk Hv)
    as [err ->].
  by eexists.
Qed.

Lemma add_outline_slide_title_only layout e prs :
  title_ok e = true →
  body_placeholder (clone_layout_placeholders layout) = None →
  add_outline_slide layout e prs
  = Ok (append_slide (with_title (title_string e) (clone_layout_placeholders layout)) prs).
Proof.
  intros Ht Hb. unfold add_outline_slide.
  rewrite fill_title_ok by done; cbn.
  by rewrite fill_body_absent by (by rewrite body_placeholder_with_title).
Qed.

Lemma add_outline_slide_not_dict layout entry prs :
  is_dict entry = false →
  is_Some (title_placeholder (clone_layout_placeholders layout))
  ∨ is_Some (body_placeholder (clone_layout_placeholders layout)) →
  ∃ err, add_outline_slide layout entry prs = Raise err.
Proof.
  intros Hentry Hph. unfold add_outline_slide, fill_title.
  unfold title_placeholder in Hph.
  destruct (shapes_title (clone_layout_placeholders layout)) as [[i sh]|].
  - destruct entry; try discriminate; by eexists.
  - cbn. destruct Hph as [[? [=]]|[sh Hsh]].
    unfold fill_body. unfold body_placeholder in Hsh.
    destruct (list_find (has_idx 1) _) as [[j sh']|]; [|done].
    destruct entry; try discriminate; by eexists.
Qed.

Lemma add_outline_slide_no_title layout e prs :
  content_ok e = true →
  title_placeholder (clone_layout_placeholders layout) = None →
  add_outline_slide layout e prs
  = Ok (append_slide (with_body (content_strings e) (clone_layout_placeholders layout)) prs).
Proof.
  intros Hc Ht. unfold add_outline_slide, fill_title.
  unfold title_placeholder in Ht.
  destruct (shapes_title _) as [[i x]|]; [done|]. cbn.
  by rewrite fill_body_ok.
Qed.

End Facts.

(* ===================================================================== *)
(** ** [create_presentation]                                               *)
(* ===================================================================== *)

Section Rendering.
Context `{Externals}.

Lemma create_presentation_returns j f g s :
  create_presentation_try j f = Ok s →
  create_presentation j f g = (Some s, g, [TemplateOpened f]).
Proof. intros Hs. unfold create_presentation. by rewrite Hs. Qed.

Lemma create_presentation_fails j f g e :
  create_presentation_try j f = Raise e →
  create_presentation j f g
  = (None, g, [TemplateOpened f;
               StError ("Failed to create presentation file: " +:+ exn_str e)]).
Proof. intros He. unfold create_presentation. by rewrite He. Qed.

Lemma render_outline_entries (d : gmap string pyval) entries prs layout :
  d !! "slides" = Some (PyList entries) →
  slide_layouts prs !! 1 = Some layout →
  render_outline (PyDict d) prs = for_each (add_outline_slide layout) entries prs.
Proof.
  intros Hd Hl. unfold render_outline, slide_layouts_getitem, py_get.
  by rewrite Hl, Hd.
Qed.

Lemma save_to_stream_rewound prs :
  tell (save_to_stream prs) = 0 ∧ getvalue (save_to_stream prs) = pptx_save prs.
Proof. unfold save_to_stream; cbn. by rewrite drop_nil, app_nil_r. Qed.

Lemma render_outline_rendered (d : gmap string pyval) entries prs layout
    (rendered : pyval → Slide) :
  d !! "slides" = Some (PyList entries) →
  slide_layouts prs !! 1 = Some layout →
  (∀ e prs, e ∈ entries →
     add_outline_slide layout e prs = Ok (append_slide (rendered e) prs)) →
  render_outline (PyDict d) prs
  = Ok {| slide_layouts := slide_layouts prs;
          slides := slides prs ++ (rendered <$> entries) |}.
Proof.
  intros Hd Hl Hall.
  rewrite (render_outline_entries d entries prs layout) by done.
  by rewrite (for_each_appends layout rendered).
Qed.

Lemma create_presentation_rendered (d : gmap string pyval) entries f prs layout g
    (rendered : pyval → Slide) :
  d !! "slides" = Some (PyList entries) →
  pptx_Presentation f = Ok prs →
  slide_layouts prs !! 1 = Some layout →
  (∀ e prs, e ∈ entries →
     add_outline_slide layout e prs = Ok (append_slide (rendered e) prs)) →
  create_presentation (PyDict d) f g
  = (Some (save_to_stream {| slide_layouts := slide_layouts prs;
                             slides := slides prs ++ (rendered <$> entries) |}),
     g, [TemplateOpened f]).
Proof.
  intros Hd Hf Hl Hall. apply create_presentation_returns.
  unfold create_presentation_try. rewrite Hf; cbn.
  rewrite (render_outline_entries d entries prs layout) by done.
  by rewrite (for_each_appends layout rendered).
Qed.

Lemma create_presentation_completes v f g prs prs' :
  pptx_Presentation f = Ok prs →
  render_outline v prs = Ok prs' →
  create_presentation v f g = (Some (save_to_stream prs'), g, [TemplateOpened f]).
Proof.
  intros Hf Hr. apply create_presentation_returns.
  unfold create_presentation_try. rewrite Hf; cbn. by rewrite Hr.
Qed.

(** A stream is returned only when the template was read and the loop
    completed; it is the saved result of the loop. *)
Lemma create_presentation_Some_inv v f g prs ppt_stream :
  pptx_Presentation f = Ok prs →
  value_of (create_presentation v f g) = Some ppt_stream →
  ∃ prs', render_outline v prs = Ok prs' ∧ ppt_stream = save_to_stream prs'.
Proof.
  intros Hf. unfold create_presentation, create_presentation_try. rewrite Hf; cbn.
  destruct (render_outline v prs) as [prs'|e]; cbn; [|done].
  intros [= <-]. by exists prs'.
Qed.

(** C1, amended: for an outline whose "slides" list has N slide descriptors
    (title and content strings free of U+FFFE, U+FFFF and surrogates) and a
    template that loads and whose layout 1 gives the new slide a title and a
    body placeholder, [create_presentation] shows no error and returns a stream
    rewound to position 0 whose bytes are the saved result of the loop on the
    template: a presentation with the template's layouts and the template's
    slides, unchanged and first, followed by exactly N new ones. *)
Theorem C1_one_new_slide_per_entry (d : gmap string pyval) (entries : list pyval)
    (template_file : UploadedFile) (prs : Presentation) (layout : SlideLayout)
    (g : Globals) :
  d !! "slides" = Some (PyList entries) →
  forallb slide_descriptor entries = true →
  pptx_Presentation template_file = Ok prs →
  slide_layouts prs !! 1 = Some layout →
  is_Some (title_placeholder (clone_layout_placeholders layout)) →
  is_Some (body_placeholder (clone_layout_placeholders layout)) →
  ∃ (prs' : Presentation) (ppt_stream : BytesIO) (new : list Slide),
    create_presentation (PyDict d) template_file g
    = (Some ppt_stream, g, [TemplateOpened template_file])
    ∧ tell ppt_stream = 0
    ∧ getvalue ppt_stream = pptx_save prs'
    ∧ render_outline (PyDict d) prs = Ok prs'
    ∧ slide_layouts prs' = slide_layouts prs
    ∧ slides prs' = slides prs ++ new
    ∧ length new = length entries
    ∧ length (slides prs') = length (slides prs) + length entries.
Proof.
  intros Hd Hentries Hf Hl _ _.
  assert (render_outline (PyDict d) prs
          = Ok {| slide_layouts := slide_layouts prs;
                  slides := slides prs ++ (expected_slide layout <$> entries) |}) as Hr.
  { apply (render_outline_rendered d entries prs layout (expected_slide layout)); [done..|].
    intros e prs0 He. apply add_outline_slide_ok. by eapply forallb_elem_of. }
  eexists _, _, (expected_slide layout <$> entries).
  split; [by apply (create_presentation_completes _ _ _ prs)|].
  split; [apply save_to_stream_rewound|]. split; [apply save_to_stream_rewound|].
  split; [done|]. split; [done|]. split; [done|]. cbn.
  rewrite length_app, !length_fmap. done.
Qed.

(** C2, amended: when the new slide has a placeholder with idx 1, the outline
    consists of slide descriptors (strings free of U+FFFE, U+FFFF and
    surrogates) and its n-th entry has a content list of K >= 1 strings, the
    call completes and the body placeholder of the n-th new slide has exactly K
    paragraphs, at level 0, in the order of the list; paragraph i reads as
    python-pptx stores content[i]: a line feed or vertical tab as a line break
    (read as a vertical tab), any other control character but the tab as
    [_x00HH_]; it reads content[i] itself when the string has no control
    character but tabs. *)
Theorem C2_body_paragraphs (d : gmap string pyval) (entries : list pyval)
    (template_file : UploadedFile) (prs : Presentation) (layout : SlideLayout)
    (g : Globals) (n : nat) (entry : gmap string pyval) (cs : list string) :
  d !! "slides" = Some (PyList entries) →
  forallb slide_descriptor entries = true →
  pptx_Presentation template_file = Ok prs →
  slide_layouts prs !! 1 = Some layout →
  is_Some (body_placeholder (clone_layout_placeholders layout)) →
  entries !! n = Some (PyDict entry) →
  entry !! "content" = Some (PyList (PyStr <$> cs)) →
  1 ≤ length cs →
  ∃ (prs' : Presentation) (slide : Slide) (body : Shape),
    create_presentation (PyDict d) template_file g
    = (Some (save_to_stream prs'), g, [TemplateOpened template_file])
    ∧ render_outline (PyDict d) prs = Ok prs'
    ∧ slides prs' !! (length (slides prs) + n) = Some slide
    ∧ body_placeholder slide = Some body
    ∧ length (paragraphs (text_frame body)) = length cs
    ∧ paragraphs (text_frame body) = (λ c, bullet (paragraph_text c)) <$> cs
    ∧ (forallb plain_text cs = true →
       p_text <$> paragraphs (text_frame body) = cs).
Proof.
  intros Hd Hentries Hf Hl [sh Hsh] Hn Hcontent Hlen.
  assert (render_outline (PyDict d) prs
          = Ok {| slide_layouts := slide_layouts prs;
                  slides := slides prs ++ (expected_slide layout <$> entries) |}) as Hr.
  { apply (render_outline_rendered d entries prs layout (expected_slide layout)); [done..|].
    intros e prs0 He. apply add_outline_slide_ok. by eapply forallb_elem_of. }
  assert (content_strings (PyDict entry) = cs) as Hcs.
  { cbn. rewrite Hcontent. clear. induction cs; [done|]. cbn. by f_equal. }
  eexists _, (expected_slide layout (PyDict entry)), _.
  split; [by apply (create_presentation_completes _ _ _ prs)|].
  split; [done|]. split; [|split].
  - cbn. rewrite lookup_app_r, list_lookup_fmap by lia.
    replace (length (slides prs) + n - length (slides prs)) with n by lia.
    by rewrite Hn.
  - by apply expected_slide_body.
  - rewrite text_frame_with_text_frame, paragraphs_write_items_fresh, Hcs.
    destruct cs as [|c rest]; [cbn in Hlen; lia|].
    split; [by rewrite length_fmap|]. split; [done|].
    intros Hplain. rewrite <- list_fmap_compose.
    clear -Hplain. induction (c :: rest) as [|x xs IH]; [done|].
    cbn in Hplain. apply andb_prop in Hplain as [Hx Hxs].
    cbn. rewrite paragraph_text_plain by done. f_equal. by apply IH.
Qed.

(** C6: when the new slide has a placeholder with idx 1 and the n-th entry has
    an empty content list, then whenever the call returns a stream, it holds
    the saved result of the loop, in which the body placeholder of the n-th
    new slide is left with its single, empty paragraph: no paragraph carries
    text.  This needs nothing of the other entries nor of the titles; and the
    call does return a stream when the outline consists of slide descriptors. *)
Theorem C6_empty_content (d : gmap string pyval) (entries : list pyval)
    (template_file : UploadedFile) (prs : Presentation) (layout : SlideLayout)
    (g : Globals) (n : nat) (entry : gmap string pyval) :
  d !! "slides" = Some (PyList entries) →
  pptx_Presentation template_file = Ok prs →
  slide_layouts prs !! 1 = Some layout →
  is_Some (body_placeholder (clone_layout_placeholders layout)) →
  entries !! n = Some (PyDict entry) →
  entry !! "content" = Some (PyList []) →
  (∀ ppt_stream : BytesIO,
     value_of (create_presentation (PyDict d) template_file g) = Some ppt_stream →
     ∃ (prs' : Presentation) (slide : Slide) (body : Shape),
       render_outline (PyDict d) prs = Ok prs'
       ∧ getvalue ppt_stream = pptx_save prs'
       ∧ slides prs' !! (length (slides prs) + n) = Some slide
       ∧ body_placeholder slide = Some body
       ∧ paragraphs (text_frame body) = [empty_paragraph])
  ∧ (forallb slide_descriptor entries = true →
     ∃ prs' : Presentation,
       render_outline (PyDict d) prs = Ok prs'
       ∧ create_presentation (PyDict d) template_file g
         = (Some (save_to_stream prs'), g, [TemplateOpened template_file])).
Proof.
  intros Hd Hf Hl [sh Hsh] Hn Hcontent. split.
  - intros ppt_stream Hsome.
    destruct (create_presentation_Some_inv _ _ _ prs _ Hf Hsome) as (prs' & Hr & ->).
    pose proof Hr as Hloop.
    rewrite (render_outline_entries d entries prs layout) in Hloop by done.
    destruct (for_each_add_outline_slide_lookup _ _ _ _ _ _ Hloop Hn)
      as (sl1 & slide & Ht & Hb & Hlook).
    apply fill_title_inv in Ht as [t ->].
    rewrite (fill_body_items _ _ []) in Hb.
    2:{ intros tf. unfold fill_text_frame, py_get. by rewrite Hcontent. }
    injection Hb as <-.
    eexists prs', _, _. split; [done|]. split; [apply save_to_stream_rewound|].
    split; [done|]. split.
    + erewrite body_placeholder_with_body by (by rewrite body_placeholder_with_title).
      done.
    + rewrite text_frame_with_text_frame.
      by rewrite (fresh_text_frame layout sh) by (by eapply body_placeholder_elem_of).
  - intros Hentries. eexists. split.
    + apply (render_outline_rendered d entries prs layout (expected_slide layout));
        [done..|].
      intros e prs0 He. apply add_outline_slide_ok. by eapply forallb_elem_of.
    + apply (create_presentation_rendered d entries _ prs layout g (expected_slide layout));
        [done..|].
      intros e prs0 He. apply add_outline_slide_ok. by eapply forallb_elem_of.
Qed.

(** C7, amended: when the new slide has no placeholder with idx 1 and every
    entry is an object whose title is absent or a string free of U+FFFE, U+FFFF
    and surrogates, every entry is rendered without error, whatever its
    content: the slide has the placeholders cloned from the layout and no body
    placeholder; its title shape, if any, reads the entry's title (the empty
    string when absent), one paragraph per line as python-pptx stores it, and
    exactly the title in one paragraph when it has no control character but
    tabs; every other shape is as cloned. *)
Theorem C7_no_body_placeholder (d : gmap string pyval) (entries : list pyval)
    (template_file : UploadedFile) (prs : Presentation) (layout : SlideLayout)
    (g : Globals) :
  d !! "slides" = Some (PyList entries) →
  forallb title_ok entries = true →
  pptx_Presentation template_file = Ok prs →
  slide_layouts prs !! 1 = Some layout →
  body_placeholder (clone_layout_placeholders layout) = None →
  ∃ prs' : Presentation,
    create_presentation (PyDict d) template_file g
    = (Some (save_to_stream prs'), g, [TemplateOpened template_file])
    ∧ render_outline (PyDict d) prs = Ok prs'
    ∧ ∀ (n : nat) (e : pyval),
        entries !! n = Some e →
        ∃ slide : Slide,
          slides prs' !! (length (slides prs) + n) = Some slide
          ∧ body_placeholder slide = None
          ∧ placeholder_format <$> shapes slide
            = placeholder_format <$> shapes (clone_layout_placeholders layout)
          ∧ (∀ i sh, shapes_title (clone_layout_placeholders layout) = Some (i, sh) →
               ∃ title : Shape,
                 shapes slide !! i = Some title
                 ∧ paragraphs (text_frame title)
                   = (λ line, bullet (paragraph_text line))
                       <$> split_newline (title_string e)
                 ∧ (plain_text (title_string e) = true →
                    paragraphs (text_frame title) = [bullet (title_string e)]))
          ∧ (∀ k, (∀ sh, shapes_title (clone_layout_placeholders layout) ≠ Some (k, sh)) →
               shapes slide !! k = shapes (clone_layout_placeholders layout) !! k).
Proof.
  intros Hd Hentries Hf Hl Hbody.
  set (fresh := clone_layout_placeholders layout) in *.
  assert (∀ e prs0, e ∈ entries →
            add_outline_slide layout e prs0
            = Ok (append_slide (with_title (title_string e) fresh) prs0)) as Hall.
  { intros e prs0 He. apply add_outline_slide_title_only; [|done].
    by eapply forallb_elem_of. }
  eexists. split; [|split].
  - by apply (create_presentation_rendered d entries _ prs layout g
                (λ e, with_title (title_string e) fresh)).
  - by apply (render_outline_rendered d entries prs layout
                (λ e, with_title (title_string e) fresh)).
  - intros n e Hn. eexists. split; [|split; [|split; [|split]]].
    + cbn. rewrite lookup_app_r, list_lookup_fmap by lia.
      replace (length (slides prs) + n - length (slides prs)) with n by lia.
      by rewrite Hn.
    + by rewrite body_placeholder_with_title.
    + unfold with_title. destruct (shapes_title fresh) as [[i sh]|]; [|done].
      unfold alter_shape; cbn [shapes]. by apply fmap_alter_preserved.
    + intros i sh Hi. unfold with_title. rewrite Hi. unfold alter_shape; cbn [shapes].
      apply list_find_Some in Hi as (Hi & _).
      exists (set_shape_text (title_string e) sh).
      split; [by rewrite list_lookup_alter_eq, Hi|].
      unfold set_shape_text. rewrite text_frame_with_text_frame, paragraphs_set_text.
      split; [done|]. intros Hplain.
      rewrite split_newline_plain by done. cbn. unfold stored_bullet.
      by rewrite paragraph_text_plain.
    + intros k Hk. unfold with_title.
      destruct (shapes_title fresh) as [[i sh]|] eqn:Hi; [|done].
      unfold alter_shape; cbn [shapes].
      apply list_lookup_alter_ne. intros ->. by apply (Hk sh).
Qed.

Lemma render_outline_no_entries (d : gmap string pyval) prs :
  default (PyList []) (d !! "slides") = PyList [] →
  is_Some (slide_layouts prs !! 1) →
  render_outline (PyDict d) prs = Ok prs.
Proof.
  intros Hd [layout Hl]. unfold render_outline, slide_layouts_getitem, py_get.
  by rewrite Hl, Hd.
Qed.

(** C8, amended: for an outline with zero slide entries and a template that
    loads and has a layout at position 1, the loop leaves the presentation as
    loaded and [create_presentation] returns it saved, with no error shown: no
    slide is added and the existing ones are untouched. *)
Theorem C8_zero_entries_keep_template (d : gmap string pyval)
    (template_file : UploadedFile) (prs : Presentation) (g : Globals) :
  default (PyList []) (d !! "slides") = PyList [] →
  pptx_Presentation template_file = Ok prs →
  is_Some (slide_layouts prs !! 1) →
  render_outline (PyDict d) prs = Ok prs
  ∧ create_presentation (PyDict d) template_file g
    = (Some (save_to_stream prs), g, [TemplateOpened template_file]).
Proof.
  intros Hd Hf Hl. split; [by apply render_outline_no_entries|].
  apply create_presentation_returns. unfold create_presentation_try.
  rewrite Hf; cbn. by rewrite render_outline_no_entries.
Qed.

Lemma create_presentation_try_not_dict v f :
  is_dict v = false → ∃ e, create_presentation_try v f = Raise e.
Proof.
  intros Hv. unfold create_presentation_try.
  destruct (pptx_Presentation f) as [prs|e]; [|by eexists]. cbn.
  unfold render_outline, slide_layouts_getitem.
  destruct (slide_layouts prs !! 1); [|by eexists]. cbn.
  destruct v; try discriminate; by eexists.
Qed.

Lemma create_presentation_try_bad_slides (d : gmap string pyval) v f :
  d !! "slides" = Some v →
  is_ok (py_iter v) = false →
  ∃ err, create_presentation_try (PyDict d) f = Raise err.
Proof.
  intros Hd Hv. unfold create_presentation_try.
  destruct (pptx_Presentation f) as [prs|e]; [|by eexists]. cbn.
  unfold render_outline, slide_layouts_getitem.
  destruct (slide_layouts prs !! 1); [|by eexists]. cbn. rewrite Hd; cbn.
  destruct (py_iter v); [done|by eexists].
Qed.

Lemma create_presentation_try_bad_entry (d : gmap string pyval) entries entry f prs layout :
  d !! "slides" = Some (PyList entries) →
  entry ∈ entries →
  is_dict entry = false →
  pptx_Presentation f = Ok prs →
  slide_layouts prs !! 1 = Some layout →
  is_Some (title_placeholder (clone_layout_placeholders layout))
  ∨ is_Some (body_placeholder (clone_layout_placeholders layout)) →
  ∃ err, create_presentation_try (PyDict d) f = Raise err.
Proof.
  intros Hd Hin Hentry Hf Hl Hph. unfold create_presentation_try. rewrite Hf; cbn.
  rewrite (render_outline_entries d entries prs layout) by done.
  destruct (for_each_raises (add_outline_slide layout) entry entries) with (s := prs)
    as [err ->]; [|done|by exists err].
  intros s. by apply add_outline_slide_not_dict.
Qed.

Lemma create_presentation_entry_raises (d : gmap string pyval) entries n entry f prs layout g :
  d !! "slides" = Some (PyList entries) →
  entries !! n = Some entry →
  pptx_Presentation f = Ok prs →
  slide_layouts prs !! 1 = Some layout →
  (∀ s, ∃ err, add_outline_slide layout entry s = Raise err) →
  render_failed f g (create_presentation (PyDict d) f g).
Proof.
  intros Hd Hn Hf Hl Hentry.
  destruct (for_each_raises (add_outline_slide layout) entry entries Hentry)
    with (s := prs) as [err Herr]; [by eapply list_elem_of_lookup_2|].
  exists err. apply create_presentation_fails.
  unfold create_presentation_try. rewrite Hf; cbn.
  by rewrite (render_outline_entries d entries prs layout), Herr.
Qed.

(** X1: a template that cannot be read ends the call at once, whatever the
    outline: the error shown carries the reader's text, nothing is returned. *)
Theorem template_load_failure (v : pyval) (f : UploadedFile) (g : Globals) (e : exn) :
  pptx_Presentation f = Raise e →
  create_presentation v f g
  = (None, g, [TemplateOpened f;
               StError ("Failed to create presentation file: " +:+ exn_str e)]).
Proof.
  intros Hf. apply create_presentation_fails.
  unfold create_presentation_try. by rewrite Hf.
Qed.

(** X2: one entry whose "title" is present but is no string (null, a number)
    makes the whole call fail when the slide has a title placeholder, also
    when every other entry is fine: nothing is returned. *)
Theorem title_of_wrong_type_fails (d : gmap string pyval) (entries : list pyval)
    (n : nat) (entry : gmap string pyval) (v : pyval) (f : UploadedFile)
    (prs : Presentation) (layout : SlideLayout) (g : Globals) :
  d !! "slides" = Some (PyList entries) →
  entries !! n = Some (PyDict entry) →
  entry !! "title" = Some v →
  is_str v = false →
  pptx_Presentation f = Ok prs →
  slide_layouts prs !! 1 = Some layout →
  is_Some (title_placeholder (clone_layout_placeholders layout)) →
  render_failed f g (create_presentation (PyDict d) f g).
Proof.
  intros Hd Hn Hentry Hv Hf Hl Hph.
  apply (create_presentation_entry_raises d entries n (PyDict entry) f prs layout);
    [done..|].
  intros s. by eapply add_outline_slide_bad_title.
Qed.

(** X3: one content list holding an item that is no string makes the whole
    call fail when the slide has a body placeholder, wherever the item stands
    in its list: nothing is returned. *)
Theorem content_item_of_wrong_type_fails (d : gmap string pyval) (entries : list pyval)
    (n : nat) (entry : gmap string pyval) (items : list pyval) (k : nat) (v : pyval)
    (f : UploadedFile) (prs : Presentation) (layout : SlideLayout) (g : Globals) :
  d !! "slides" = Some (PyList entries) →
  entries !! n = Some (PyDict entry) →
  entry !! "content" = Some (PyList items) →
  items !! k = Some v →
  is_str v = false →
  pptx_Presentation f = Ok prs →
  slide_layouts prs !! 1 = Some layout →
  is_Some (body_placeholder (clone_layout_placeholders layout)) →
  render_failed f g (create_presentation (PyDict d) f g).
Proof.
  intros Hd Hn Hentry Hk Hv Hf Hl Hph.
  apply (create_presentation_entry_raises d entries n (PyDict entry) f prs layout);
    [done..|].
  intros s. by eapply add_outline_slide_bad_item.
Qed.

(** X4: for an outline of slide descriptors (strings free of U+FFFE, U+FFFF
    and surrogates) and a layout with a title placeholder, the title shape of
    the n-th new slide reads the n-th entry's title (the empty string when the
    entry has no "title"), one paragraph per line of it and each line as
    python-pptx stores it (a vertical tab as a line break, other control
    characters but the tab as [_x00HH_]); a title without any control character
    but tabs gives exactly one paragraph that reads the title. *)
Theorem title_is_written (d : gmap string pyval) (entries : list pyval)
    (template_file : UploadedFile) (prs : Presentation) (layout : SlideLayout)
    (g : Globals) (n : nat) (entry : pyval) :
  d !! "slides" = Some (PyList entries) →
  forallb slide_descriptor entries = true →
  pptx_Presentation template_file = Ok prs →
  slide_layouts prs !! 1 = Some layout →
  is_Some (title_placeholder (clone_layout_placeholders layout)) →
  entries !! n = Some entry →
  ∃ (prs' : Presentation) (slide : Slide) (title : Shape),
    create_presentation (PyDict d) template_file g
    = (Some (save_to_stream prs'), g, [TemplateOpened template_file])
    ∧ render_outline (PyDict d) prs = Ok prs'
    ∧ slides prs' !! (length (slides prs) + n) = Some slide
    ∧ title_placeholder slide = Some title
    ∧ paragraphs (text_frame title)
      = (λ line, bullet (paragraph_text line)) <$> split_newline (title_string entry)
    ∧ (plain_text (title_string entry) = true →
       paragraphs (text_frame title) = [bullet (title_string entry)]).
Proof.
  intros Hd Hentries Hf Hl [sh Hsh] Hn.
  assert (∀ e prs0, e ∈ entries →
            add_outline_slide layout e prs0
            = Ok (append_slide (expected_slide layout e) prs0)) as Hall.
  { intros e prs0 He. apply add_outline_slide_ok. by eapply forallb_elem_of. }
  eexists _, (expected_slide layout entry), _.
  split; [|split; [|split; [|split; [|split]]]].
  - by apply (create_presentation_rendered d entries _ prs layout g (expected_slide layout)).
  - by apply (render_outline_rendered d entries prs layout (expected_slide layout)).
  - cbn. rewrite lookup_app_r, list_lookup_fmap by lia.
    replace (length (slides prs) + n - length (slides prs)) with n by lia.
    by rewrite Hn.
  - unfold expected_slide. rewrite title_placeholder_with_body.
    by apply title_placeholder_with_title.
  - unfold set_shape_text. by rewrite text_frame_with_text_frame, paragraphs_set_text.
  - intros Hplain. unfold set_shape_text.
    rewrite text_frame_with_text_frame, paragraphs_set_text, split_newline_plain by done.
    cbn. unfold stored_bullet. by rewrite paragraph_text_plain.
Qed.

Lemma fill_text_frame_str (d : gmap string pyval) b rest tf :
  d !! "content" = Some (PyStr (String b rest)) →
  forallb text_accepted (utf8_chars (String b rest)) = true →
  fill_text_frame (PyDict d) tf = Ok (write_items (utf8_chars (String b rest)) tf).
Proof.
  intros Hd Hok. unfold fill_text_frame, py_get. rewrite Hd.
  rewrite utf8_chars_cons in Hok |- *. cbn [forallb] in Hok.
  apply andb_prop in Hok as [Hhead Htail].
  cbn -[for_each utf8_head utf8_tail utf8_chars text_accepted].
  rewrite Hhead. cbn -[for_each utf8_head utf8_tail utf8_chars text_accepted].
  unfold str_chars. by rewrite for_each_add_bullet.
Qed.

(** X5: a "content" that is a non-empty string instead of a list is not
    rejected: when the text setters accept each of its characters, the loop
    body completes and the body placeholder gets one paragraph per character of
    the string (per code point, not per byte), in order, each reading as
    python-pptx stores that character. *)
Theorem string_content_is_split_into_characters (layout : SlideLayout)
    (d : gmap string pyval) (prs : Presentation) (b : ascii) (rest : string)
    (sh : Shape) :
  title_ok (PyDict d) = true →
  d !! "content" = Some (PyStr (String b rest)) →
  forallb text_accepted (utf8_chars (String b rest)) = true →
  body_placeholder (clone_layout_placeholders layout) = Some sh →
  ∃ (slide : Slide) (body : Shape),
    add_outline_slide layout (PyDict d) prs = Ok (append_slide slide prs)
    ∧ body_placeholder slide = Some body
    ∧ paragraphs (text_frame body)
      = (λ c, bullet (paragraph_text c)) <$> utf8_chars (String b rest)
    ∧ length (paragraphs (text_frame body)) = length (utf8_chars (String b rest)).
Proof.
  intros Ht Hd Hok Hsh.
  eexists (with_body (utf8_chars (String b rest))
            (with_title (title_string (PyDict d)) (clone_layout_placeholders layout))), _.
  assert (utf8_chars (String b rest) ≠ []) as Hne by (by rewrite utf8_chars_cons).
  split; [|split; [|split]].
  - unfold add_outline_slide. rewrite fill_title_ok by done; cbn -[utf8_chars].
    rewrite (fill_body_items _ _ (utf8_chars (String b rest))); [done|].
    intros tf. by apply fill_text_frame_str.
  - erewrite body_placeholder_with_body by (by rewrite body_placeholder_with_title).
    done.
  - rewrite text_frame_with_text_frame.
    rewrite (fresh_text_frame layout sh) by (by eapply body_placeholder_elem_of).
    rewrite paragraphs_write_items_fresh.
    by destruct (utf8_chars (String b rest)).
  - rewrite text_frame_with_text_frame.
    rewrite (fresh_text_frame layout sh) by (by eapply body_placeholder_elem_of).
    rewrite paragraphs_write_items_fresh.
    destruct (utf8_chars (String b rest)); [done|]. by rewrite length_fmap.
Qed.

(** X6: a "content" that is present but falsy (null, 0, false, the empty
    string, an empty object) is rendered exactly like an empty list. *)
Theorem falsy_content_is_empty_content (layout : SlideLayout) (d : gmap string pyval)
    (v : pyval) (prs : Presentation) :
  d !! "content" = Some v →
  truthy v = false →
  add_outline_slide layout (PyDict d) prs
  = add_outline_slide layout (PyDict (<["content" := PyList []]> d)) prs.
Proof.
  intros Hd Hv.
  assert (∀ sl, fill_title (PyDict (<["content" := PyList []]> d)) sl
                = fill_title (PyDict d) sl) as Htitle.
  { intros sl. unfold fill_title, py_get. by rewrite lookup_insert_ne. }
  assert (∀ tf, fill_text_frame (PyDict (<["content" := PyList []]> d)) tf
                = fill_text_frame (PyDict d) tf) as Hframe.
  { intros tf. unfold fill_text_frame, py_get.
    rewrite lookup_insert_eq, Hd. cbn. by rewrite Hv. }
  unfold add_outline_slide. rewrite Htitle.
  destruct (fill_title (PyDict d) _) as [sl1|]; [|done]. cbn.
  unfold fill_body. destruct (list_find (has_idx 1) (shapes sl1)) as [[j y]|]; [|done].
  by rewrite Hframe.
Qed.

(** X7: whatever the outline, a loop that completes leaves the layouts as they
    were and the existing slides in place, and has added exactly one slide per
    item of the "slides" value. *)
Theorem render_outline_only_appends (v : pyval) (prs prs' : Presentation) :
  render_outline v prs = Ok prs' →
  slide_layouts prs' = slide_layouts prs
  ∧ ∃ (entries : list pyval) (new : list Slide),
      py_get v "slides" (PyList []) ≫= py_iter = Ok entries
      ∧ slides prs' = slides prs ++ new
      ∧ length new = length entries.
Proof.
  unfold render_outline.
  destruct (slide_layouts_getitem prs 1) as [layout|]; [|done]. cbn.
  destruct (py_get v "slides" (PyList [])) as [slides_value|]; [|done]. cbn.
  destruct (py_iter slides_value) as [entries|]; [|done]. cbn.
  intros (Hl & new & Hs & Hn)%for_each_add_outline_slide_inv.
  split; [done|]. by exists entries, new.
Qed.

(** X8: a call ends in one of two ways.  Either it returns a stream and shows
    nothing: the stream is rewound to position 0 and holds the saved bytes of
    the template extended by the loop.  Or it returns nothing and shows exactly
    one error.  The globals are never touched. *)
Theorem create_presentation_stream_or_error (v : pyval) (f : UploadedFile) (g : Globals) :
  (∃ (prs prs' : Presentation) (ppt_stream : BytesIO),
     pptx_Presentation f = Ok prs
     ∧ render_outline v prs = Ok prs'
     ∧ create_presentation v f g = (Some ppt_stream, g, [TemplateOpened f])
     ∧ tell ppt_stream = 0
     ∧ getvalue ppt_stream = pptx_save prs')
  ∨ render_failed f g (create_presentation v f g).
Proof.
  destruct (pptx_Presentation f) as [prs|e] eqn:Hf.
  - destruct (render_outline v prs) as [prs'|e] eqn:Hr.
    + left. exists prs, prs', (save_to_stream prs').
      split; [done|]. split; [done|]. split; [|apply save_to_stream_rewound].
      apply create_presentation_returns. unfold create_presentation_try.
      rewrite Hf; cbn. by rewrite Hr.
    + right. exists e. apply create_presentation_fails.
      unfold create_presentation_try. rewrite Hf; cbn. by rewrite Hr.
  - right. exists e. apply create_presentation_fails.
    unfold create_presentation_try. by rewrite Hf.
Qed.

(** X9: whatever the entry, a loop body that completes has appended one slide
    with the placeholders cloned from the layout, same idx and type in the same
    order, and has left every shape whose idx is neither 0 nor 1 as cloned. *)
Theorem only_title_and_body_are_written (layout : SlideLayout) (slide_data : pyval)
    (prs prs' : Presentation) :
  add_outline_slide layout slide_data prs = Ok prs' →
  ∃ slide : Slide,
    prs' = append_slide slide prs
    ∧ placeholder_format <$> shapes slide
      = placeholder_format <$> shapes (clone_layout_placeholders layout)
    ∧ ∀ (k : nat) (sh : Shape),
        shapes (clone_layout_placeholders layout) !! k = Some sh →
        ¬ has_idx 0 sh → ¬ has_idx 1 sh →
        shapes slide !! k = Some sh.
Proof.
  intros (sl1 & slide & Ht & Hb & ->)%add_outline_slide_inv.
  set (fresh := clone_layout_placeholders layout) in *.
  exists slide. split; [done|].
  apply fill_title_inv in Ht as [t ->].
  assert (placeholder_format <$> shapes (with_title t fresh)
          = placeholder_format <$> shapes fresh
          ∧ ∀ k sh, shapes fresh !! k = Some sh → ¬ has_idx 0 sh →
                    shapes (with_title t fresh) !! k = Some sh) as [Hfmt1 Hkeep1].
  { unfold with_title. destruct (shapes_title fresh) as [[i x]|] eqn:Hi; [|done].
    unfold alter_shape; cbn [shapes]. split; [by apply fmap_alter_preserved|].
    intros k sh Hk Hsh. rewrite list_lookup_alter_ne; [done|]. intros ->.
    apply list_find_Some in Hi as (Hi & Hx & _). congruence. }
  apply fill_body_inv in Hb as [->|(j & y & tf & Hj & ->)].
  - split; [done|]. intros k sh Hk H0 _. by apply Hkeep1.
  - unfold alter_shape; cbn [shapes]. split.
    + by rewrite fmap_alter_preserved.
    + intros k sh Hk H0 H1. rewrite list_lookup_alter_ne; [by apply Hkeep1|].
      intros ->. apply list_find_Some in Hj as (Hj & Hy & _).
      rewrite (Hkeep1 k sh Hk H0) in Hj. congruence.
Qed.

(** X10: when the slide has no title placeholder the entries' titles are never
    read: entries whose content is a list of strings free of U+FFFE, U+FFFF and
    surrogates (or is absent) are rendered whatever stands under "title", one
    slide each; the body of the n-th new slide has one paragraph per content
    string, each reading as python-pptx stores the string (a single empty
    paragraph for no string), and the other shapes are as cloned. *)
Theorem no_title_placeholder_ignores_titles (d : gmap string pyval)
    (entries : list pyval) (template_file : UploadedFile) (prs : Presentation)
    (layout : SlideLayout) (g : Globals) :
  d !! "slides" = Some (PyList entries) →
  forallb content_ok entries = true →
  pptx_Presentation template_file = Ok prs →
  slide_layouts prs !! 1 = Some layout →
  title_placeholder (clone_layout_placeholders layout) = None →
  ∃ prs' : Presentation,
    create_presentation (PyDict d) template_file g
    = (Some (save_to_stream prs'), g, [TemplateOpened template_file])
    ∧ render_outline (PyDict d) prs = Ok prs'
    ∧ length (slides prs') = length (slides prs) + length entries
    ∧ ∀ (n : nat) (e : pyval),
        entries !! n = Some e →
        ∃ slide : Slide,
          slides prs' !! (length (slides prs) + n) = Some slide
          ∧ (∀ body : Shape,
               body_placeholder (clone_layout_placeholders layout) = Some body →
               ∃ body' : Shape,
                 body_placeholder slide = Some body'
                 ∧ paragraphs (text_frame body')
                   = match content_strings e with
                     | [] => [empty_paragraph]
                     | cs => (λ c, bullet (paragraph_text c)) <$> cs
                     end)
          ∧ (∀ (k : nat) (sh : Shape),
               shapes (clone_layout_placeholders layout) !! k = Some sh →
               ¬ has_idx 1 sh →
               shapes slide !! k = Some sh).
Proof.
  intros Hd Hentries Hf Hl Htitle.
  set (fresh := clone_layout_placeholders layout) in *.
  assert (∀ e prs0, e ∈ entries →
            add_outline_slide layout e prs0
            = Ok (append_slide (with_body (content_strings e) fresh) prs0)) as Hall.
  { intros e prs0 He. apply add_outline_slide_no_title; [|done].
    by eapply forallb_elem_of. }
  eexists. split; [|split; [|split]].
  - by apply (create_presentation_rendered d entries _ prs layout g
                (λ e, with_body (content_strings e) fresh)).
  - by apply (render_outline_rendered d entries prs layout
                (λ e, with_body (content_strings e) fresh)).
  - cbn. by rewrite length_app, length_fmap.
  - intros n e Hn. eexists. split; [|split].
    + cbn. rewrite lookup_app_r, list_lookup_fmap by lia.
      replace (length (slides prs) + n - length (slides prs)) with n by lia.
      by rewrite Hn.
    + intros body Hbody. eexists. split; [by apply body_placeholder_with_body|].
      rewrite text_frame_with_text_frame.
      rewrite (fresh_text_frame layout body) by (by eapply body_placeholder_elem_of).
      rewrite paragraphs_write_items_fresh. by destruct (content_strings e).
    + intros k sh Hk H1. unfold with_body.
      destruct (list_find (has_idx 1) (shapes fresh)) as [[j y]|] eqn:Hj; [|done].
      unfold alter_shape; cbn [shapes]. rewrite list_lookup_alter_ne; [done|].
      intros ->. apply list_find_Some in Hj as (Hj & Hy & _). congruence.
Qed.

End Rendering.

(* ===================================================================== *)
(** ** The handler of the button                                           *)
(* ===================================================================== *)

Section Handler.
Context `{Externals}.

Lemma generate_slide_content_run api_key raw_text guidance g :
  generate_slide_content api_key raw_text guidance g
  = let request := chat_request (prompt raw_text guidance) in
    let g' := {| openai_api_key := Some api_key |} in
    match parse_reply (chat_completions_create (Some api_key) request) with
    | Ok outline => (outline, g', [ChatRequestSent (Some api_key) request])
    | Raise e =>
        (PyNone, g',
         [ChatRequestSent (Some api_key) request;
          StError ("An error occurred with the LLM API call: " +:+ exn_str e)])
    end.
Proof.
  unfold generate_slide_content, mbind, App_bind, put_globals, get_globals, emit; cbn.
  by destruct (parse_reply _).
Qed.

Lemma generator_always_requests api_key raw_text guidance g :
  generator_ran (events_of (generate_slide_content api_key raw_text guidance g)) = true.
Proof. rewrite generate_slide_content_run; cbn. by destruct (parse_reply _). Qed.

Lemma renderer_always_opens j f g :
  renderer_ran (events_of (create_presentation j f g)) = true.
Proof.
  unfold create_presentation, mbind, App_bind, emit.
  by destruct (create_presentation_try j f).
Qed.

Lemma parse_reply_content response choice rest json_string :
  choices response = choice :: rest →
  message_content choice = Some json_string →
  parse_reply (Ok response) = json_loads json_string.
Proof. intros Hc Hm. unfold parse_reply; cbn. by rewrite Hc; cbn; rewrite Hm. Qed.

Lemma on_generate_falsy_outline raw_text guidance api_key template_file g :
  truthy (PyStr raw_text) = true →
  truthy (PyStr api_key) = true →
  truthy (value_of (generate_slide_content api_key raw_text guidance g)) = false →
  script true raw_text guidance api_key (Some template_file) g
  = ((), globals_of (generate_slide_content api_key raw_text guidance g),
     StSpinner "Generating slide content with AI... 🧠"
     :: events_of (generate_slide_content api_key raw_text guidance g)).
Proof.
  intros Ht Hk Hv. unfold script, on_generate. rewrite Ht, Hk; cbn [negb].
  unfold mbind, App_bind, st_spinner, emit.
  destruct (generate_slide_content api_key raw_text guidance g) as [[v g'] es].
  cbn in Hv |- *. rewrite Hv. cbn. by rewrite app_nil_r.
Qed.

(** Every way a click can go once the three required fields are there. *)
Lemma script_present_run raw_text guidance api_key template_file g :
  truthy (PyStr raw_text) = true →
  truthy (PyStr api_key) = true →
  script true raw_text guidance api_key (Some template_file) g
  = let request := chat_request (prompt raw_text guidance) in
    let g' := {| openai_api_key := Some api_key |} in
    let sent := [StSpinner "Generating slide content with AI... 🧠";
                 ChatRequestSent (Some api_key) request] in
    let opened := [StSuccess "✅ Content structure generated!";
                   StSpinner "Creating your presentation... 🎨";
                   TemplateOpened template_file] in
    match parse_reply (chat_completions_create (Some api_key) request) with
    | Raise e =>
        ((), g', sent ++ [StError ("An error occurred with the LLM API call: " +:+ exn_str e)])
    | Ok llm_output =>
        if truthy llm_output then
          match create_presentation_try llm_output template_file with
          | Ok ppt_stream =>
              ((), g', sent ++ opened
                       ++ [StSuccess "✅ Presentation created!";
                           StDownloadButton "📥 Download Presentation" ppt_stream
                             "generated_presentation.pptx"
                             "application/vnd.openxmlformats-officedocument.presentationml.presentation"
                             true])
          | Raise e =>
              ((), g', sent ++ opened
                       ++ [StError ("Failed to create presentation file: " +:+ exn_str e)])
          end
        else ((), g', sent)
    end.
Proof.
  intros Ht Hk. unfold script, on_generate. rewrite Ht, Hk; cbn [negb].
  unfold mbind at 1 2. unfold App_bind, st_spinner, emit.
  rewrite generate_slide_content_run. cbn zeta.
  destruct (parse_reply _) as [v|e]; [|done].
  destruct (truthy v); [|done].
  unfold mbind, App_bind, st_success, st_spinner, emit, create_presentation.
  by destruct (create_presentation_try v template_file).
Qed.

(** C4: when every field is present and the text of the reply is rejected by
    [json.loads], [generate_slide_content] returns [None], the run shows the
    generator's error message with the parser's text, and it ends there: the
    template is never opened and no download is offered. *)
Theorem C4_unparseable_reply (raw_text guidance api_key : string)
    (template_file : UploadedFile) (g : Globals) (response : ChatCompletion)
    (choice : Choice) (rest : list Choice) (json_string : string) (e : exn) :
  truthy (PyStr raw_text) = true →
  truthy (PyStr api_key) = true →
  chat_completions_create (Some api_key) (chat_request (prompt raw_text guidance))
  = Ok response →
  choices response = choice :: rest →
  message_content choice = Some json_string →
  json_loads json_string = Raise e →
  value_of (generate_slide_content api_key raw_text guidance g) = PyNone
  ∧ events_of (script true raw_text guidance api_key (Some template_file) g)
    = [StSpinner "Generating slide content with AI... 🧠";
       ChatRequestSent (Some api_key) (chat_request (prompt raw_text guidance));
       StError ("An error occurred with the LLM API call: " +:+ exn_str e)]
  ∧ error_shown (events_of (script true raw_text guidance api_key (Some template_file) g))
    = true
  ∧ renderer_ran (events_of (script true raw_text guidance api_key (Some template_file) g))
    = false
  ∧ download_offered (events_of (script true raw_text guidance api_key (Some template_file) g))
    = false.
Proof.
  intros Ht Hk Hreply Hchoices Hcontent Hloads.
  assert (generate_slide_content api_key raw_text guidance g
          = (PyNone, {| openai_api_key := Some api_key |},
             [ChatRequestSent (Some api_key) (chat_request (prompt raw_text guidance));
              StError ("An error occurred with the LLM API call: " +:+ exn_str e)]))
    as Hgen.
  { rewrite generate_slide_content_run; cbn zeta.
    by rewrite Hreply, (parse_reply_content _ _ _ _ Hchoices Hcontent), Hloads. }
  rewrite on_generate_falsy_outline by (by rewrite ?Hgen).
  rewrite Hgen. done.
Qed.

(** C9: when every field is present and the reply parses to a falsy value,
    [generate_slide_content] returns that value and shows no error; the run
    then ends after the request: the template is never opened, no download is
    offered and no error is shown. *)
Theorem C9_falsy_reply_ends_silently (raw_text guidance api_key : string)
    (template_file : UploadedFile) (g : Globals) (response : ChatCompletion)
    (choice : Choice) (rest : list Choice) (json_string : string) (v : pyval) :
  truthy (PyStr raw_text) = true →
  truthy (PyStr api_key) = true →
  chat_completions_create (Some api_key) (chat_request (prompt raw_text guidance))
  = Ok response →
  choices response = choice :: rest →
  message_content choice = Some json_string →
  json_loads json_string = Ok v →
  truthy v = false →
  generate_slide_content api_key raw_text guidance g
  = (v, {| openai_api_key := Some api_key |},
     [ChatRequestSent (Some api_key) (chat_request (prompt raw_text guidance))])
  ∧ events_of (script true raw_text guidance api_key (Some template_file) g)
    = [StSpinner "Generating slide content with AI... 🧠";
       ChatRequestSent (Some api_key) (chat_request (prompt raw_text guidance))]
  ∧ renderer_ran (events_of (script true raw_text guidance api_key (Some template_file) g))
    = false
  ∧ download_offered (events_of (script true raw_text guidance api_key (Some template_file) g))
    = false
  ∧ error_shown (events_of (script true raw_text guidance api_key (Some template_file) g))
    = false.
Proof.
  intros Ht Hk Hreply Hchoices Hcontent Hloads Hv.
  assert (generate_slide_content api_key raw_text guidance g
          = (v, {| openai_api_key := Some api_key |},
             [ChatRequestSent (Some api_key) (chat_request (prompt raw_text guidance))]))
    as Hgen.
  { rewrite generate_slide_content_run; cbn zeta.
    by rewrite Hreply, (parse_reply_content _ _ _ _ Hchoices Hcontent), Hloads. }
  split; [done|].
  rewrite on_generate_falsy_outline by (by rewrite ?Hgen).
  rewrite Hgen. done.
Qed.

(** C5: when a required field is missing, a click shows exactly one element,
    the error message naming a missing field, leaves the globals as they were,
    sends no request and opens no template.  The field named is the missing
    field itself unless a field checked before it is missing too. *)
Theorem C5_missing_field_reported (raw_text guidance api_key : string)
    (uploaded_template : option UploadedFile) (g : Globals) (f : field) :
  field_missing raw_text api_key uploaded_template f = true →
  ∃ named : field,
    field_missing raw_text api_key uploaded_template named = true
    ∧ ((∀ other : field,
          field_missing raw_text api_key uploaded_template other = true →
          check_order f ≤ check_order other) →
       named = f)
    ∧ script true raw_text guidance api_key uploaded_template g
      = ((), g, [StError (missing_message named)])
    ∧ generator_ran (events_of (script true raw_text guidance api_key uploaded_template g))
      = false
    ∧ renderer_ran (events_of (script true raw_text guidance api_key uploaded_template g))
      = false.
Proof.
  intros Hf.
  assert (∃ named : field,
             field_missing raw_text api_key uploaded_template named = true
             ∧ (∀ other : field,
                  field_missing raw_text api_key uploaded_template other = true →
                  check_order named ≤ check_order other)
             ∧ script true raw_text guidance api_key uploaded_template g
               = ((), g, [StError (missing_message named)]))
    as (named & Hnamed & Hfirst & Hrun).
  { destruct raw_text as [|a t].
    { exists FText. split; [done|]. split; [|done]. intros other _; cbn; lia. }
    destruct api_key as [|b k].
    { exists FCredential. split; [done|]. split; [|done].
      intros [] ?; cbn in *; (discriminate || lia). }
    destruct uploaded_template as [template_file|]; [by destruct f|].
    exists FTemplate. split; [done|]. split; [|done].
    intros [] ?; cbn in *; (discriminate || lia). }
  exists named. rewrite Hrun. split; [done|]. split; [|done].
  intros Hf_first. specialize (Hf_first named Hnamed). specialize (Hfirst f Hf).
  destruct named, f; cbn in *; (done || lia).
Qed.

(** C10: when two or more required fields are missing, a click shows exactly
    one error, the one of the first missing field in the order text, API key,
    template; the message of a later missing field is not shown. *)
Theorem C10_first_missing_only (raw_text guidance api_key : string)
    (uploaded_template : option UploadedFile) (g : Globals)
    (first second : field) (others : list field) :
  missing_fields raw_text api_key uploaded_template = first :: second :: others →
  script true raw_text guidance api_key uploaded_template g
  = ((), g, [StError (missing_message first)])
  ∧ length (filter (λ e, is_error e = true)
              (events_of (script true raw_text guidance api_key uploaded_template g))) = 1
  ∧ ∀ later : field,
      later ∈ second :: others →
      StError (missing_message later)
      ∉ events_of (script true raw_text guidance api_key uploaded_template g).
Proof.
  intros Hm.
  destruct raw_text as [|a t], api_key as [|b k], uploaded_template as [template_file|];
    cbn in Hm; try discriminate; injection Hm as <- <- <-;
    (split; [done|]; split; [done|]);
    intros later Hlater Hin%list_elem_of_singleton;
    repeat (apply elem_of_cons in Hlater as [->|Hlater]; [discriminate|]);
    by apply elem_of_nil in Hlater.
Qed.

(** C3, amended: a reply that parses as JSON but lacks the expected shape does
    not always fail.
    (1) A reply whose value is no object never yields a download: when the
    value is truthy the handler shows its first success message, the renderer
    opens the template and fails, and its error is shown; when the value is
    falsy the run ends after the request, the renderer is not invoked and no
    error is shown.
    (2) [create_presentation] on an object whose "slides" value cannot be
    iterated (null, a number, a boolean) shows one error and returns nothing.
    (3) [create_presentation] on an object whose "slides" list has an entry
    that is no object, with a template that loads and whose layout at position
    1 gives the slide a title or a body placeholder, shows one error and
    returns nothing.
    (4) Missing keys are defaulted: [create_presentation] on an object without
    "slides", with a template that loads and has a layout at position 1,
    returns the template saved, with no error, as for an empty list.
    (5) A slide entry without "title" is rendered as with the empty string.
    (6) A slide entry without "content" is rendered as with the empty list. *)
Theorem C3_missing_keys_are_defaulted :
  (∀ (raw_text guidance api_key : string) (template_file : UploadedFile) (g : Globals)
     (response : ChatCompletion) (choice : Choice) (rest : list Choice)
     (json_string : string) (outline : pyval),
     truthy (PyStr raw_text) = true →
     truthy (PyStr api_key) = true →
     chat_completions_create (Some api_key) (chat_request (prompt raw_text guidance))
     = Ok response →
     choices response = choice :: rest →
     message_content choice = Some json_string →
     json_loads json_string = Ok outline →
     is_dict outline = false →
     download_offered
       (events_of (script true raw_text guidance api_key (Some template_file) g)) = false
     ∧ (truthy outline = true →
        ∃ e : exn,
          events_of (script true raw_text guidance api_key (Some template_file) g)
          = [StSpinner "Generating slide content with AI... 🧠";
             ChatRequestSent (Some api_key) (chat_request (prompt raw_text guidance));
             StSuccess "✅ Content structure generated!";
             StSpinner "Creating your presentation... 🎨";
             TemplateOpened template_file;
             StError ("Failed to create presentation file: " +:+ exn_str e)])
     ∧ (truthy outline = false →
        events_of (script true raw_text guidance api_key (Some template_file) g)
        = [StSpinner "Generating slide content with AI... 🧠";
           ChatRequestSent (Some api_key) (chat_request (prompt raw_text guidance))]))
  ∧ (∀ (d : gmap string pyval) (v : pyval) (f : UploadedFile) (g : Globals),
       d !! "slides" = Some v →
       is_ok (py_iter v) = false →
       render_failed f g (create_presentation (PyDict d) f g))
  ∧ (∀ (d : gmap string pyval) (entries : list pyval) (n : nat) (entry : pyval)
       (f : UploadedFile) (prs : Presentation) (layout : SlideLayout) (g : Globals),
       d !! "slides" = Some (PyList entries) →
       entries !! n = Some entry →
       is_dict entry = false →
       pptx_Presentation f = Ok prs →
       slide_layouts prs !! 1 = Some layout →
       is_Some (title_placeholder (clone_layout_placeholders layout))
       ∨ is_Some (body_placeholder (clone_layout_placeholders layout)) →
       render_failed f g (create_presentation (PyDict d) f g))
  ∧ (∀ (d : gmap string pyval) (f : UploadedFile) (prs : Presentation) (g : Globals),
       d !! "slides" = None →
       pptx_Presentation f = Ok prs →
       is_Some (slide_layouts prs !! 1) →
       create_presentation (PyDict d) f g
       = (Some (save_to_stream prs), g, [TemplateOpened f])
       ∧ create_presentation (PyDict d) f g
         = create_presentation (PyDict (<["slides" := PyList []]> d)) f g)
  ∧ (∀ (layout : SlideLayout) (d : gmap string pyval) (prs : Presentation),
       d !! "title" = None →
       add_outline_slide layout (PyDict d) prs
       = add_outline_slide layout (PyDict (<["title" := PyStr EmptyString]> d)) prs)
  ∧ (∀ (layout : SlideLayout) (d : gmap string pyval) (prs : Presentation),
       d !! "content" = None →
       add_outline_slide layout (PyDict d) prs
       = add_outline_slide layout (PyDict (<["content" := PyList []]> d)) prs).
Proof.
  split; [|split; [|split; [|split; [|split]]]].
  - intros raw_text guidance api_key template_file g response choice rest json_string
      outline Ht Hk Hcall Hchoices Hcontent Hloads Hdict.
    rewrite script_present_run by done. cbn zeta.
    rewrite Hcall, (parse_reply_content _ _ _ _ Hchoices Hcontent), Hloads.
    destruct (create_presentation_try_not_dict outline template_file Hdict) as [e Htry].
    destruct (truthy outline).
    + rewrite Htry. split; [done|]. split; [|done]. intros _. by exists e.
    + done.
  - intros d v f g Hd Hv.
    destruct (create_presentation_try_bad_slides d v f Hd Hv) as [e He].
    exists e. by apply create_presentation_fails.
  - intros d entries n entry f prs layout g Hd Hn Hentry Hf Hl Hph.
    destruct (create_presentation_try_bad_entry d entries entry f prs layout)
      as [e He]; [done | by eapply list_elem_of_lookup_2 | done..|].
    exists e. by apply create_presentation_fails.
  - intros d f prs g Hd Hf Hl.
    assert (create_presentation (PyDict d) f g
            = (Some (save_to_stream prs), g, [TemplateOpened f])) as Hrun.
    { apply create_presentation_returns.
      unfold create_presentation_try. rewrite Hf; cbn.
      rewrite render_outline_no_entries; [done| |done]. by rewrite Hd. }
    split; [done|]. rewrite Hrun. symmetry. apply create_presentation_returns.
    unfold create_presentation_try. rewrite Hf; cbn.
    rewrite render_outline_no_entries; [done| |done]. by rewrite lookup_insert_eq.
  - intros layout d prs Hd.
    unfold add_outline_slide, fill_title, fill_body, fill_text_frame, py_get.
    by rewrite lookup_insert_eq, lookup_insert_ne, Hd.
  - intros layout d prs Hd.
    unfold add_outline_slide, fill_title, fill_body, fill_text_frame, py_get.
    by rewrite lookup_insert_eq, lookup_insert_ne, Hd.
Qed.

(** X11: when the service call itself fails (the client raises), the generator
    returns [None] after showing its error with the client's text, and the
    click ends there: the template is not opened, no download is offered. *)
Theorem api_call_failure (raw_text guidance api_key : string)
    (template_file : UploadedFile) (g : Globals) (e : exn) :
  truthy (PyStr raw_text) = true →
  truthy (PyStr api_key) = true →
  chat_completions_create (Some api_key) (chat_request (prompt raw_text guidance))
  = Raise e →
  generate_slide_content api_key raw_text guidance g
  = (PyNone, {| openai_api_key := Some api_key |},
     [ChatRequestSent (Some api_key) (chat_request (prompt raw_text guidance));
      StError ("An error occurred with the LLM API call: " +:+ exn_str e)])
  ∧ events_of (script true raw_text guidance api_key (Some template_file) g)
    = [StSpinner "Generating slide content with AI... 🧠";
       ChatRequestSent (Some api_key) (chat_request (prompt raw_text guidance));
       StError ("An error occurred with the LLM API call: " +:+ exn_str e)]
  ∧ renderer_ran (events_of (script true raw_text guidance api_key (Some template_file) g))
    = false
  ∧ download_offered (events_of (script true raw_text guidance api_key (Some template_file) g))
    = false.
Proof.
  intros Ht Hk Hcall. split.
  - rewrite generate_slide_content_run; cbn zeta. by rewrite Hcall.
  - rewrite script_present_run by done. cbn zeta. by rewrite Hcall.
Qed.

(** X12: a reply with no choice at all, or whose first choice has no text
    content, is a failure like any other: the generator returns [None], an
    error is shown, the template is not opened and no download is offered. *)
Theorem reply_without_text (raw_text guidance api_key : string)
    (template_file : UploadedFile) (g : Globals) (response : ChatCompletion) :
  truthy (PyStr raw_text) = true →
  truthy (PyStr api_key) = true →
  chat_completions_create (Some api_key) (chat_request (prompt raw_text guidance))
  = Ok response →
  choices response = []
  ∨ (∃ (choice : Choice) (rest : list Choice),
       choices response = choice :: rest ∧ message_content choice = None) →
  value_of (generate_slide_content api_key raw_text guidance g) = PyNone
  ∧ length (filter (λ e, is_error e = true)
              (events_of (script true raw_text guidance api_key (Some template_file) g)))
    = 1
  ∧ renderer_ran (events_of (script true raw_text guidance api_key (Some template_file) g))
    = false
  ∧ download_offered (events_of (script true raw_text guidance api_key (Some template_file) g))
    = false.
Proof.
  intros Ht Hk Hcall Hreply.
  assert (∃ e, parse_reply (chat_completions_create (Some api_key)
                              (chat_request (prompt raw_text guidance))) = Raise e)
    as [e He].
  { rewrite Hcall. unfold parse_reply; cbn.
    destruct Hreply as [->|(choice & rest & -> & Hnone)]; cbn; [by eexists|].
    rewrite Hnone. by eexists. }
  split.
  - rewrite generate_slide_content_run; cbn zeta. by rewrite He.
  - rewrite script_present_run by done. cbn zeta. by rewrite He.
Qed.

(** X13: with the three required fields present, exactly one request is sent,
    under the key of this submission and with the prompt built from this text
    and guidance, whatever key an earlier run left in the module; the module
    keeps the new key afterwards, however the click ends. *)
Theorem request_uses_submitted_key (raw_text guidance api_key : string)
    (template_file : UploadedFile) (g : Globals) :
  truthy (PyStr raw_text) = true →
  truthy (PyStr api_key) = true →
  globals_of (script true raw_text guidance api_key (Some template_file) g)
  = {| openai_api_key := Some api_key |}
  ∧ filter (λ e, is_request e = true)
      (events_of (script true raw_text guidance api_key (Some template_file) g))
    = [ChatRequestSent (Some api_key) (chat_request (prompt raw_text guidance))].
Proof.
  intros Ht Hk. rewrite script_present_run by done. cbn zeta.
  destruct (parse_reply _) as [v|e]; [|done].
  destruct (truthy v); [|done].
  by destruct (create_presentation_try v template_file).
Qed.

(** X14: when the reply parses to a truthy outline and the renderer completes,
    the click shows both success messages and ends with the download button:
    its data is the stream holding the rendered presentation, its file name
    and MIME type are the fixed ones. *)
Theorem successful_run_offers_download (raw_text guidance api_key : string)
    (template_file : UploadedFile) (g : Globals) (response : ChatCompletion)
    (choice : Choice) (rest : list Choice) (json_string : string) (outline : pyval)
    (prs prs' : Presentation) :
  truthy (PyStr raw_text) = true →
  truthy (PyStr api_key) = true →
  chat_completions_create (Some api_key) (chat_request (prompt raw_text guidance))
  = Ok response →
  choices response = choice :: rest →
  message_content choice = Some json_string →
  json_loads json_string = Ok outline →
  truthy outline = true →
  pptx_Presentation template_file = Ok prs →
  render_outline outline prs = Ok prs' →
  script true raw_text guidance api_key (Some template_file) g
  = ((), {| openai_api_key := Some api_key |},
     [StSpinner "Generating slide content with AI... 🧠";
      ChatRequestSent (Some api_key) (chat_request (prompt raw_text guidance));
      StSuccess "✅ Content structure generated!";
      StSpinner "Creating your presentation... 🎨";
      TemplateOpened template_file;
      StSuccess "✅ Presentation created!";
      StDownloadButton "📥 Download Presentation" (save_to_stream prs')
        "generated_presentation.pptx"
        "application/vnd.openxmlformats-officedocument.presentationml.presentation"
        true]).
Proof.
  intros Ht Hk Hcall Hchoices Hcontent Hloads Houtline Hf Hrender.
  rewrite script_present_run by done. cbn zeta.
  rewrite Hcall, (parse_reply_content _ _ _ _ Hchoices Hcontent), Hloads, Houtline.
  unfold create_presentation_try. rewrite Hf; cbn. by rewrite Hrender.
Qed.

(** X15: when the reply parses to a truthy outline but the renderer fails, the
    first success message stays on the page, followed by the renderer's error;
    the second success message and the download button are not shown. *)
Theorem renderer_failure_after_generation (raw_text guidance api_key : string)
    (template_file : UploadedFile) (g : Globals) (response : ChatCompletion)
    (choice : Choice) (rest : list Choice) (json_string : string) (outline : pyval)
    (e : exn) :
  truthy (PyStr raw_text) = true →
  truthy (PyStr api_key) = true →
  chat_completions_create (Some api_key) (chat_request (prompt raw_text guidance))
  = Ok response →
  choices response = choice :: rest →
  message_content choice = Some json_string →
  json_loads json_string = Ok outline →
  truthy outline = true →
  create_presentation_try outline template_file = Raise e →
  events_of (script true raw_text guidance api_key (Some template_file) g)
  = [StSpinner "Generating slide content with AI... 🧠";
     ChatRequestSent (Some api_key) (chat_request (prompt raw_text guidance));
     StSuccess "✅ Content structure generated!";
     StSpinner "Creating your presentation... 🎨";
     TemplateOpened template_file;
     StError ("Failed to create presentation file: " +:+ exn_str e)]
  ∧ download_offered (events_of (script true raw_text guidance api_key (Some template_file) g))
    = false.
Proof.
  intros Ht Hk Hcall Hchoices Hcontent Hloads Houtline Htry.
  rewrite script_present_run by done. cbn zeta.
  by rewrite Hcall, (parse_reply_content _ _ _ _ Hchoices Hcontent), Hloads, Houtline, Htry.
Qed.

(** X16: whatever the form holds and whatever the libraries answer, a download
    button is shown only at the end of a run without error, after the request
    was sent and the template opened; it carries the stream the renderer
    returned for the uploaded template, under the fixed file name and MIME
    type. *)
Theorem download_only_after_success (generate_button : bool)
    (raw_text guidance api_key : string) (uploaded_template : option UploadedFile)
    (g : Globals) :
  download_offered
    (events_of (script generate_button raw_text guidance api_key uploaded_template g))
  = true →
  error_shown
    (events_of (script generate_button raw_text guidance api_key uploaded_template g))
  = false
  ∧ generator_ran
      (events_of (script generate_button raw_text guidance api_key uploaded_template g))
    = true
  ∧ renderer_ran
      (events_of (script generate_button raw_text guidance api_key uploaded_template g))
    = true
  ∧ ∃ (template_file : UploadedFile) (outline : pyval) (ppt_stream : BytesIO),
      uploaded_template = Some template_file
      ∧ create_presentation_try outline template_file = Ok ppt_stream
      ∧ last (events_of (script generate_button raw_text guidance api_key
                           uploaded_template g))
        = Some (StDownloadButton "📥 Download Presentation" ppt_stream
                  "generated_presentation.pptx"
                  "application/vnd.openxmlformats-officedocument.presentationml.presentation"
                  true).
Proof.
  destruct generate_button; [|done].
  destruct raw_text as [|a t]; [done|].
  destruct api_key as [|b k]; [done|].
  destruct uploaded_template as [template_file|]; [|done].
  rewrite script_present_run by done. cbn zeta.
  destruct (parse_reply _) as [v|e]; [|done].
  destruct (truthy v); [|done].
  destruct (create_presentation_try v template_file) as [s|e] eqn:Htry; [|done].
  intros _. split; [done|]. split; [done|]. split; [done|].
  by exists template_file, v, s.
Qed.

(** X17: whatever the form holds and whatever the libraries answer, one run
    shows at most one error, sends at most one request and opens the template
    at most once, and it opens the template only after a request was sent. *)
Theorem at_most_one_call_each (generate_button : bool)
    (raw_text guidance api_key : string) (uploaded_template : option UploadedFile)
    (g : Globals) :
  length (filter (λ e, is_error e = true)
            (events_of (script generate_button raw_text guidance api_key
                          uploaded_template g))) ≤ 1
  ∧ length (filter (λ e, is_request e = true)
              (events_of (script generate_button raw_text guidance api_key
                            uploaded_template g))) ≤ 1
  ∧ length (filter (λ e, is_template_open e = true)
              (events_of (script generate_button raw_text guidance api_key
                            uploaded_template g))) ≤ 1
  ∧ (renderer_ran (events_of (script generate_button raw_text guidance api_key
                                uploaded_template g)) = true →
     generator_ran (events_of (script generate_button raw_text guidance api_key
                                 uploaded_template g)) = true).
Proof.
  destruct generate_button; [|count_events].
  destruct raw_text as [|a t]; [count_events|].
  destruct api_key as [|b k]; [count_events|].
  destruct uploaded_template as [template_file|]; [|count_events].
  rewrite script_present_run by done. cbn zeta.
  destruct (parse_reply _) as [v|e]; [|count_events].
  destruct (truthy v); [|count_events].
  destruct (create_presentation_try v template_file); count_events.
Qed.

(** X18: a reply that parses to a truthy value that is no object (a list, a
    string, a number) passes the handler's test: the first success message is
    shown, then the renderer fails on it and its error is shown; no download is
    offered. *)
Theorem non_object_outline_fails_in_renderer (raw_text guidance api_key : string)
    (template_file : UploadedFile) (g : Globals) (response : ChatCompletion)
    (choice : Choice) (rest : list Choice) (json_string : string) (outline : pyval) :
  truthy (PyStr raw_text) = true →
  truthy (PyStr api_key) = true →
  chat_completions_create (Some api_key) (chat_request (prompt raw_text guidance))
  = Ok response →
  choices response = choice :: rest →
  message_content choice = Some json_string →
  json_loads json_string = Ok outline →
  truthy outline = true →
  is_dict outline = false →
  ∃ e : exn,
    events_of (script true raw_text guidance api_key (Some template_file) g)
    = [StSpinner "Generating slide content with AI... 🧠";
       ChatRequestSent (Some api_key) (chat_request (prompt raw_text guidance));
       StSuccess "✅ Content structure generated!";
       StSpinner "Creating your presentation... 🎨";
       TemplateOpened template_file;
       StError ("Failed to create presentation file: " +:+ exn_str e)].
Proof.
  intros Ht Hk Hcall Hchoices Hcontent Hloads Houtline Hdict.
  destruct (create_presentation_try_not_dict outline template_file Hdict) as [e Htry].
  exists e. rewrite script_present_run by done. cbn zeta.
  by rewrite Hcall, (parse_reply_content _ _ _ _ Hchoices Hcontent), Hloads, Houtline, Htry.
Qed.

End Handler.

(* ===================================================================== *)
(** ** The properties on concrete inputs                                   *)
(* ===================================================================== *)

(** The replies the handler takes for no outline although they parse. *)
Example falsy_values :
  truthy (PyDict ∅) = false ∧ truthy PyNone = false
  ∧ truthy (PyList []) = false ∧ truthy (PyInt 0) = false
  ∧ truthy (PyFloat (S754_zero true)) = false ∧ truthy (PyStr EmptyString) = false
  ∧ truthy (PyBool false) = false.
Proof. by repeat split. Qed.

(** The end-to-end scenario of the specification: one entry titled "Overview"
    with three content strings, a template with two layouts. *)
Example end_to_end_scenario :
  @json_loads Fixture.libs Fixture.overview_text = Ok Fixture.overview
  ∧ ∃ data : BytesIO,
      events_of (@script Fixture.libs true "Alpha. Beta. Gamma." EmptyString "sk-test"
                   (Some (Fixture.upload "two_layouts.pptx")) Fixture.g0)
      = [StSpinner "Generating slide content with AI... 🧠";
         ChatRequestSent (Some "sk-test")
           (chat_request (prompt "Alpha. Beta. Gamma." EmptyString));
         StSuccess "✅ Content structure generated!";
         StSpinner "Creating your presentation... 🎨";
         TemplateOpened (Fixture.upload "two_layouts.pptx");
         StSuccess "✅ Presentation created!";
         StDownloadButton "📥 Download Presentation" data "generated_presentation.pptx"
           "application/vnd.openxmlformats-officedocument.presentationml.presentation"
           true]
  ∧ @render_outline Fixture.libs Fixture.overview Fixture.two_layouts
    = Ok {| slide_layouts := slide_layouts Fixture.two_layouts;
            slides :=
         [Fixture.cover;
          {| shapes :=
               [ {| placeholder_format := Some (Fixture.ph 0 TITLE);
                    txBody := Some {| first_p := bullet "Overview"; more_p := [] |} |};
                 {| placeholder_format := Some (Fixture.ph 1 OBJECT);
                    txBody := Some {| first_p := bullet "Alpha";
                                      more_p := [bullet "Beta"; bullet "Gamma"] |} |} ] |}] |}.
Proof.
  split; [reflexivity|]. eexists. split.
  - vm_compute. reflexivity.
  - vm_compute. reflexivity.
Qed.

Lemma C1_witness :
  ∃ (prs' : Presentation) (ppt_stream : BytesIO) (new : list Slide),
    @create_presentation Fixture.libs (PyDict Fixture.overview_dict)
      (Fixture.upload "two_layouts.pptx") Fixture.g0
    = (Some ppt_stream, Fixture.g0, [TemplateOpened (Fixture.upload "two_layouts.pptx")])
    ∧ tell ppt_stream = 0
    ∧ getvalue ppt_stream = @pptx_save Fixture.libs prs'
    ∧ @render_outline Fixture.libs (PyDict Fixture.overview_dict) Fixture.two_layouts
      = Ok prs'
    ∧ slide_layouts prs' = slide_layouts Fixture.two_layouts
    ∧ slides prs' = slides Fixture.two_layouts ++ new
    ∧ length new = 1
    ∧ length (slides prs') = length (slides Fixture.two_layouts) + 1.
Proof.
  apply (@C1_one_new_slide_per_entry Fixture.libs Fixture.overview_dict
           [PyDict Fixture.overview_entry] (Fixture.upload "two_layouts.pptx")
           Fixture.two_layouts Fixture.title_and_content Fixture.g0);
    [reflexivity | reflexivity | reflexivity | reflexivity
    | eexists; reflexivity | eexists; reflexivity].
Defined.

(** C1 as stated fails: an outline of the expected shape whose title holds
    U+FFFF, on a template that loads and whose layout 1 has both placeholders;
    the title setter raises and nothing is returned. *)
Lemma C1_refused_title_fails :
  expected_shape (PyDict (MoreFixture.one_entry MoreFixture.refused_title)) = true
  ∧ slide_layouts Fixture.two_layouts !! 1 = Some Fixture.title_and_content
  ∧ title_placeholder (clone_layout_placeholders Fixture.title_and_content)
    = Some (clone_placeholder (Fixture.ph 0 TITLE))
  ∧ body_placeholder (clone_layout_placeholders Fixture.title_and_content)
    = Some (clone_placeholder (Fixture.ph 1 OBJECT))
  ∧ @create_presentation (MoreFixture.libs_xml (Ok Fixture.two_layouts))
      (PyDict (MoreFixture.one_entry MoreFixture.refused_title))
      (Fixture.upload "two_layouts.pptx") Fixture.g0
    = (None, Fixture.g0,
       [TemplateOpened (Fixture.upload "two_layouts.pptx");
        StError ("Failed to create presentation file: "
                 +:+ "All strings must be XML compatible: Unicode or ASCII, "
                 +:+ "no NULL bytes or control characters")]).
Proof. repeat split; vm_compute; reflexivity. Qed.

Lemma C2_witness :
  ∃ (prs' : Presentation) (slide : Slide) (body : Shape),
    @create_presentation Fixture.libs (PyDict Fixture.overview_dict)
      (Fixture.upload "two_layouts.pptx") Fixture.g0
    = (Some (@save_to_stream Fixture.libs prs'), Fixture.g0,
       [TemplateOpened (Fixture.upload "two_layouts.pptx")])
    ∧ @render_outline Fixture.libs (PyDict Fixture.overview_dict) Fixture.two_layouts
      = Ok prs'
    ∧ slides prs' !! (length (slides Fixture.two_layouts) + 0) = Some slide
    ∧ body_placeholder slide = Some body
    ∧ length (paragraphs (text_frame body)) = 3
    ∧ paragraphs (text_frame body) = [bullet "Alpha"; bullet "Beta"; bullet "Gamma"]
    ∧ (forallb plain_text ["Alpha"; "Beta"; "Gamma"] = true →
       p_text <$> paragraphs (text_frame body) = ["Alpha"; "Beta"; "Gamma"]).
Proof.
  apply (@C2_body_paragraphs Fixture.libs Fixture.overview_dict
           [PyDict Fixture.overview_entry] (Fixture.upload "two_layouts.pptx")
           Fixture.two_layouts Fixture.title_and_content Fixture.g0 0
           Fixture.overview_entry ["Alpha"; "Beta"; "Gamma"]);
    [reflexivity | reflexivity | reflexivity | reflexivity
    | eexists; reflexivity | reflexivity | reflexivity | simpl; lia].
Defined.

(** C2 as stated fails: a content string with a line feed, an escape and a
    carriage return is stored rewritten, so the paragraph does not carry
    content[0]; a content string that holds U+FFFF is refused and nothing is
    returned. *)
Lemma C2_control_characters_are_rewritten :
  expected_shape (PyDict (MoreFixture.one_entry MoreFixture.control_content)) = true
  ∧ @render_outline Fixture.libs
      (PyDict (MoreFixture.one_entry MoreFixture.control_content)) Fixture.two_layouts
    = Ok {| slide_layouts := slide_layouts Fixture.two_layouts;
            slides :=
         [Fixture.cover;
          {| shapes :=
               [ {| placeholder_format := Some (Fixture.ph 0 TITLE);
                    txBody := Some {| first_p := bullet "Overview"; more_p := [] |} |};
                 {| placeholder_format := Some (Fixture.ph 1 OBJECT);
                    txBody :=
                      Some {| first_p :=
                                bullet ("a" +:+ String vertical_tab "b_x001B_c_x000D_d");
                              more_p := [] |} |} ] |}] |}
  ∧ "a" +:+ String vertical_tab "b_x001B_c_x000D_d" ≠ MoreFixture.control_text
  ∧ expected_shape (PyDict (MoreFixture.one_entry MoreFixture.refused_content)) = true
  ∧ @create_presentation (MoreFixture.libs_xml (Ok Fixture.two_layouts))
      (PyDict (MoreFixture.one_entry MoreFixture.refused_content))
      (Fixture.upload "two_layouts.pptx") Fixture.g0
    = (None, Fixture.g0,
       [TemplateOpened (Fixture.upload "two_layouts.pptx");
        StError ("Failed to create presentation file: "
                 +:+ "All strings must be XML compatible: Unicode or ASCII, "
                 +:+ "no NULL bytes or control characters")]).
Proof. repeat split; try (vm_compute; reflexivity). vm_compute. discriminate. Qed.

Lemma C6_witness :
  ∃ (prs' : Presentation) (slide : Slide) (body : Shape),
    @create_presentation Fixture.libs (PyDict Fixture.empty_content_dict)
      (Fixture.upload "two_layouts.pptx") Fixture.g0
    = (Some (@save_to_stream Fixture.libs prs'), Fixture.g0,
       [TemplateOpened (Fixture.upload "two_layouts.pptx")])
    ∧ @render_outline Fixture.libs (PyDict Fixture.empty_content_dict) Fixture.two_layouts
      = Ok prs'
    ∧ slides prs' !! (length (slides Fixture.two_layouts) + 0) = Some slide
    ∧ body_placeholder slide = Some body
    ∧ paragraphs (text_frame body) = [empty_paragraph].
Proof.
  destruct (@C6_empty_content Fixture.libs Fixture.empty_content_dict
              [PyDict {[ "content" := PyList [] ]}] (Fixture.upload "two_layouts.pptx")
              Fixture.two_layouts Fixture.title_and_content Fixture.g0 0
              {[ "content" := PyList [] ]}) as [Hwhen Hdoes];
    [reflexivity | reflexivity | reflexivity | eexists; reflexivity
    | reflexivity | reflexivity |].
  destruct Hdoes as (prs' & Hr & Hrun); [reflexivity|].
  destruct (Hwhen (@save_to_stream Fixture.libs prs'))
    as (prs'' & slide & body & Hr' & _ & Hslide & Hbody & Hpars).
  { rewrite Hrun. reflexivity. }
  rewrite Hr in Hr'. injection Hr' as <-.
  exists prs', slide, body. repeat split; assumption.
Defined.

Lemma C7_witness :
  ∃ prs' : Presentation,
    @create_presentation Fixture.libs (PyDict Fixture.overview_dict)
      (Fixture.upload "no_body.pptx") Fixture.g0
    = (Some (@save_to_stream Fixture.libs prs'), Fixture.g0,
       [TemplateOpened (Fixture.upload "no_body.pptx")])
    ∧ @render_outline Fixture.libs (PyDict Fixture.overview_dict) Fixture.no_body_layout
      = Ok prs'
    ∧ ∀ (n : nat) (e : pyval),
        [PyDict Fixture.overview_entry] !! n = Some e →
        ∃ slide : Slide,
          slides prs' !! (length (slides Fixture.no_body_layout) + n) = Some slide
          ∧ body_placeholder slide = None
          ∧ placeholder_format <$> shapes slide
            = placeholder_format <$> shapes (clone_layout_placeholders Fixture.title_only)
          ∧ (∀ i sh,
               shapes_title (clone_layout_placeholders Fixture.title_only) = Some (i, sh) →
               ∃ title : Shape,
                 shapes slide !! i = Some title
                 ∧ paragraphs (text_frame title)
                   = (λ line, bullet (paragraph_text line))
                       <$> split_newline (title_string e)
                 ∧ (plain_text (title_string e) = true →
                    paragraphs (text_frame title) = [bullet (title_string e)]))
          ∧ (∀ k,
               (∀ sh, shapes_title (clone_layout_placeholders Fixture.title_only)
                      ≠ Some (k, sh)) →
               shapes slide !! k
               = shapes (clone_layout_placeholders Fixture.title_only) !! k).
Proof.
  apply (@C7_no_body_placeholder Fixture.libs Fixture.overview_dict
           [PyDict Fixture.overview_entry] (Fixture.upload "no_body.pptx")
           Fixture.no_body_layout Fixture.title_only Fixture.g0);
    reflexivity.
Defined.

(** C7 as stated fails: a slide without placeholder of idx 1 and an entry
    whose title holds U+FFFF; the title setter raises, an error is shown and no
    slide is emitted. *)
Lemma C7_refused_title_fails :
  expected_shape (PyDict (MoreFixture.one_entry MoreFixture.refused_title)) = true
  ∧ slide_layouts Fixture.no_body_layout !! 1 = Some Fixture.title_only
  ∧ body_placeholder (clone_layout_placeholders Fixture.title_only) = None
  ∧ @create_presentation (MoreFixture.libs_xml (Ok Fixture.no_body_layout))
      (PyDict (MoreFixture.one_entry MoreFixture.refused_title))
      (Fixture.upload "no_body.pptx") Fixture.g0
    = (None, Fixture.g0,
       [TemplateOpened (Fixture.upload "no_body.pptx");
        StError ("Failed to create presentation file: "
                 +:+ "All strings must be XML compatible: Unicode or ASCII, "
                 +:+ "no NULL bytes or control characters")]).
Proof. repeat split; vm_compute; reflexivity. Qed.

Lemma C8_witness :
  @render_outline Fixture.libs (PyDict Fixture.no_entries_dict) Fixture.two_layouts
  = Ok Fixture.two_layouts
  ∧ @create_presentation Fixture.libs (PyDict Fixture.no_entries_dict)
      (Fixture.upload "two_layouts.pptx") Fixture.g0
    = (Some (@save_to_stream Fixture.libs Fixture.two_layouts), Fixture.g0,
       [TemplateOpened (Fixture.upload "two_layouts.pptx")]).
Proof.
  apply (@C8_zero_entries_keep_template Fixture.libs Fixture.no_entries_dict
           (Fixture.upload "two_layouts.pptx") Fixture.two_layouts Fixture.g0);
    [reflexivity | reflexivity | eexists; reflexivity].
Defined.

(** C8 as stated fails: a template that loads but has a single layout. *)
Lemma C8_single_layout_template_fails :
  @pptx_Presentation Fixture.libs (Fixture.upload "one_layout.pptx") = Ok Fixture.one_layout
  ∧ @py_get (PyDict Fixture.no_entries_dict) "slides" (PyList []) = Ok (PyList [])
  ∧ @create_presentation Fixture.libs (PyDict Fixture.no_entries_dict)
      (Fixture.upload "one_layout.pptx") Fixture.g0
    = (None, Fixture.g0,
       [TemplateOpened (Fixture.upload "one_layout.pptx");
        StError "Failed to create presentation file: slide layout index out of range"]).
Proof. split; [reflexivity|]. split; [reflexivity|]. vm_compute. reflexivity. Qed.

Lemma C3_witness :
  (∃ e : exn,
     events_of
       (@script
          (MoreFixture.libs_with (Fixture.reply_with "[1]") (Ok (PyList [PyInt 1]))
             (Ok Fixture.two_layouts))
          true "Alpha. Beta. Gamma." EmptyString "sk-test"
          (Some (Fixture.upload "two_layouts.pptx")) Fixture.g0)
     = [StSpinner "Generating slide content with AI... 🧠";
        ChatRequestSent (Some "sk-test")
          (chat_request (prompt "Alpha. Beta. Gamma." EmptyString));
        StSuccess "✅ Content structure generated!";
        StSpinner "Creating your presentation... 🎨";
        TemplateOpened (Fixture.upload "two_layouts.pptx");
        StError ("Failed to create presentation file: " +:+ exn_str e)])
  ∧ events_of
      (@script (Fixture.stub (Fixture.reply_with "[]")) true
         "Alpha. Beta. Gamma." EmptyString "sk-test"
         (Some (Fixture.upload "two_layouts.pptx")) Fixture.g0)
    = [StSpinner "Generating slide content with AI... 🧠";
       ChatRequestSent (Some "sk-test")
         (chat_request (prompt "Alpha. Beta. Gamma." EmptyString))]
  ∧ render_failed (Fixture.upload "two_layouts.pptx") Fixture.g0
      (@create_presentation Fixture.libs (PyDict {[ "slides" := PyNone ]})
         (Fixture.upload "two_layouts.pptx") Fixture.g0)
  ∧ render_failed (Fixture.upload "two_layouts.pptx") Fixture.g0
      (@create_presentation Fixture.libs Fixture.number_entry
         (Fixture.upload "two_layouts.pptx") Fixture.g0)
  ∧ @create_presentation Fixture.libs Fixture.no_slides_key
      (Fixture.upload "two_layouts.pptx") Fixture.g0
    = (Some (@save_to_stream Fixture.libs Fixture.two_layouts), Fixture.g0,
       [TemplateOpened (Fixture.upload "two_layouts.pptx")])
  ∧ @add_outline_slide Fixture.libs Fixture.title_and_content (PyDict ∅) Fixture.two_layouts
    = @add_outline_slide Fixture.libs Fixture.title_and_content
        (PyDict (<["title" := PyStr EmptyString]> ∅)) Fixture.two_layouts
  ∧ @add_outline_slide Fixture.libs Fixture.title_and_content (PyDict ∅) Fixture.two_layouts
    = @add_outline_slide Fixture.libs Fixture.title_and_content
        (PyDict (<["content" := PyList []]> ∅)) Fixture.two_layouts.
Proof.
  destruct (@C3_missing_keys_are_defaulted
              (MoreFixture.libs_with (Fixture.reply_with "[1]") (Ok (PyList [PyInt 1]))
                 (Ok Fixture.two_layouts)))
    as (Htruthy & _).
  destruct (@C3_missing_keys_are_defaulted (Fixture.stub (Fixture.reply_with "[]")))
    as (Hfalsy & _).
  destruct (@C3_missing_keys_are_defaulted Fixture.libs)
    as (_ & Hslides & Hentry & Hkey & Htitle & Hcontent).
  split; [|split; [|split; [|split; [|split; [|split]]]]].
  - apply (Htruthy "Alpha. Beta. Gamma." EmptyString "sk-test"
             (Fixture.upload "two_layouts.pptx") Fixture.g0
             {| choices := [ {| message_content := Some "[1]" |} ] |}
             {| message_content := Some "[1]" |} [] "[1]" (PyList [PyInt 1]));
      reflexivity.
  - apply (Hfalsy "Alpha. Beta. Gamma." EmptyString "sk-test"
             (Fixture.upload "two_layouts.pptx") Fixture.g0
             {| choices := [ {| message_content := Some "[]" |} ] |}
             {| message_content := Some "[]" |} [] "[]" (PyList []));
      reflexivity.
  - apply (Hslides _ PyNone); reflexivity.
  - apply (Hentry _ [PyInt 5] 0 (PyInt 5) _ Fixture.two_layouts Fixture.title_and_content);
      [reflexivity | reflexivity | reflexivity | reflexivity | reflexivity
      | left; eexists; reflexivity].
  - apply Hkey; [reflexivity | reflexivity | eexists; reflexivity].
  - apply Htitle. reflexivity.
  - apply Hcontent. reflexivity.
Defined.

(** C3 as stated fails: replies of a wrong shape that are rendered all the same,
    one without a "slides" key and one whose entry has neither key. *)
Lemma C3_wrong_shape_is_rendered :
  @json_loads (Fixture.stub (Fixture.reply_with Fixture.no_slides_key_text))
    Fixture.no_slides_key_text = Ok Fixture.no_slides_key
  ∧ expected_shape Fixture.no_slides_key = false
  ∧ events_of (@script (Fixture.stub (Fixture.reply_with Fixture.no_slides_key_text)) true
                 "Alpha. Beta. Gamma." EmptyString "sk-test"
                 (Some (Fixture.upload "two_layouts.pptx")) Fixture.g0)
    = [StSpinner "Generating slide content with AI... 🧠";
       ChatRequestSent (Some "sk-test")
         (chat_request (prompt "Alpha. Beta. Gamma." EmptyString));
       StSuccess "✅ Content structure generated!";
       StSpinner "Creating your presentation... 🎨";
       TemplateOpened (Fixture.upload "two_layouts.pptx");
       StSuccess "✅ Presentation created!";
       StDownloadButton "📥 Download Presentation"
         (@save_to_stream Fixture.libs Fixture.two_layouts) "generated_presentation.pptx"
         "application/vnd.openxmlformats-officedocument.presentationml.presentation"
         true]
  ∧ @json_loads (Fixture.stub (Fixture.reply_with Fixture.bare_entry_text))
      Fixture.bare_entry_text = Ok Fixture.bare_entry
  ∧ expected_shape Fixture.bare_entry = false
  ∧ error_shown
      (events_of (@script (Fixture.stub (Fixture.reply_with Fixture.bare_entry_text)) true
                    "Alpha. Beta. Gamma." EmptyString "sk-test"
                    (Some (Fixture.upload "two_layouts.pptx")) Fixture.g0)) = false
  ∧ download_offered
      (events_of (@script (Fixture.stub (Fixture.reply_with Fixture.bare_entry_text)) true
                    "Alpha. Beta. Gamma." EmptyString "sk-test"
                    (Some (Fixture.upload "two_layouts.pptx")) Fixture.g0)) = true.
Proof. repeat split; vm_compute; reflexivity. Qed.

Lemma C4_witness :
  value_of (@generate_slide_content (Fixture.stub (Fixture.reply_with "Here are your slides:"))
              "sk-test" "Alpha. Beta. Gamma." EmptyString Fixture.g0) = PyNone
  ∧ events_of (@script (Fixture.stub (Fixture.reply_with "Here are your slides:")) true
                 "Alpha. Beta. Gamma." EmptyString "sk-test"
                 (Some (Fixture.upload "two_layouts.pptx")) Fixture.g0)
    = [StSpinner "Generating slide content with AI... 🧠";
       ChatRequestSent (Some "sk-test")
         (chat_request (prompt "Alpha. Beta. Gamma." EmptyString));
       StError ("An error occurred with the LLM API call: "
                +:+ "Expecting value: line 1 column 1 (char 0)")]
  ∧ error_shown
      (events_of (@script (Fixture.stub (Fixture.reply_with "Here are your slides:")) true
                    "Alpha. Beta. Gamma." EmptyString "sk-test"
                    (Some (Fixture.upload "two_layouts.pptx")) Fixture.g0)) = true
  ∧ renderer_ran
      (events_of (@script (Fixture.stub (Fixture.reply_with "Here are your slides:")) true
                    "Alpha. Beta. Gamma." EmptyString "sk-test"
                    (Some (Fixture.upload "two_layouts.pptx")) Fixture.g0)) = false
  ∧ download_offered
      (events_of (@script (Fixture.stub (Fixture.reply_with "Here are your slides:")) true
                    "Alpha. Beta. Gamma." EmptyString "sk-test"
                    (Some (Fixture.upload "two_layouts.pptx")) Fixture.g0)) = false.
Proof.
  apply (@C4_unparseable_reply (Fixture.stub (Fixture.reply_with "Here are your slides:"))
           "Alpha. Beta. Gamma." EmptyString "sk-test" (Fixture.upload "two_layouts.pptx")
           Fixture.g0 {| choices := [ {| message_content := Some "Here are your slides:" |} ] |}
           {| message_content := Some "Here are your slides:" |} []
           "Here are your slides:"
           (Exception "JSONDecodeError" "Expecting value: line 1 column 1 (char 0)"));
    reflexivity.
Defined.

Lemma C9_witness :
  @generate_slide_content (Fixture.stub (Fixture.reply_with "{}"))
    "sk-test" "Alpha. Beta. Gamma." EmptyString Fixture.g0
  = (PyDict ∅, {| openai_api_key := Some "sk-test" |},
     [ChatRequestSent (Some "sk-test")
        (chat_request (prompt "Alpha. Beta. Gamma." EmptyString))])
  ∧ events_of (@script (Fixture.stub (Fixture.reply_with "{}")) true
                 "Alpha. Beta. Gamma." EmptyString "sk-test"
                 (Some (Fixture.upload "two_layouts.pptx")) Fixture.g0)
    = [StSpinner "Generating slide content with AI... 🧠";
       ChatRequestSent (Some "sk-test")
         (chat_request (prompt "Alpha. Beta. Gamma." EmptyString))]
  ∧ renderer_ran
      (events_of (@script (Fixture.stub (Fixture.reply_with "{}")) true
                    "Alpha. Beta. Gamma." EmptyString "sk-test"
                    (Some (Fixture.upload "two_layouts.pptx")) Fixture.g0)) = false
  ∧ download_offered
      (events_of (@script (Fixture.stub (Fixture.reply_with "{}")) true
                    "Alpha. Beta. Gamma." EmptyString "sk-test"
                    (Some (Fixture.upload "two_layouts.pptx")) Fixture.g0)) = false
  ∧ error_shown
      (events_of (@script (Fixture.stub (Fixture.reply_with "{}")) true
                    "Alpha. Beta. Gamma." EmptyString "sk-test"
                    (Some (Fixture.upload "two_layouts.pptx")) Fixture.g0)) = false.
Proof.
  apply (@C9_falsy_reply_ends_silently (Fixture.stub (Fixture.reply_with "{}"))
           "Alpha. Beta. Gamma." EmptyString "sk-test" (Fixture.upload "two_layouts.pptx")
           Fixture.g0 {| choices := [ {| message_content := Some "{}" |} ] |}
           {| message_content := Some "{}" |} [] "{}" (PyDict ∅));
    reflexivity.
Defined.

Lemma C5_witness :
  ∃ named : field,
    field_missing "Alpha. Beta. Gamma." EmptyString
      (Some (Fixture.upload "two_layouts.pptx")) named = true
    ∧ ((∀ other : field,
          field_missing "Alpha. Beta. Gamma." EmptyString
            (Some (Fixture.upload "two_layouts.pptx")) other = true →
          check_order FCredential ≤ check_order other) →
       named = FCredential)
    ∧ @script Fixture.libs true "Alpha. Beta. Gamma." EmptyString EmptyString
        (Some (Fixture.upload "two_layouts.pptx")) Fixture.g0
      = ((), Fixture.g0, [StError (missing_message named)])
    ∧ generator_ran
        (events_of (@script Fixture.libs true "Alpha. Beta. Gamma." EmptyString EmptyString
                      (Some (Fixture.upload "two_layouts.pptx")) Fixture.g0)) = false
    ∧ renderer_ran
        (events_of (@script Fixture.libs true "Alpha. Beta. Gamma." EmptyString EmptyString
                      (Some (Fixture.upload "two_layouts.pptx")) Fixture.g0)) = false.
Proof.
  apply (@C5_missing_field_reported Fixture.libs "Alpha. Beta. Gamma." EmptyString
           EmptyString (Some (Fixture.upload "two_layouts.pptx")) Fixture.g0 FCredential).
  reflexivity.
Defined.

Lemma C10_witness :
  @script Fixture.libs true EmptyString EmptyString EmptyString None Fixture.g0
  = ((), Fixture.g0, [StError (missing_message FText)])
  ∧ length (filter (λ e, is_error e = true)
              (events_of (@script Fixture.libs true EmptyString EmptyString EmptyString
                            None Fixture.g0))) = 1
  ∧ ∀ later : field,
      later ∈ [FCredential; FTemplate] →
      StError (missing_message later)
      ∉ events_of (@script Fixture.libs true EmptyString EmptyString EmptyString
                     None Fixture.g0).
Proof.
  apply (@C10_first_missing_only Fixture.libs EmptyString EmptyString EmptyString None
           Fixture.g0 FText FCredential [FTemplate]).
  reflexivity.
Defined.

Lemma template_load_failure_witness :
  @create_presentation Fixture.libs Fixture.overview (Fixture.upload "notes.txt") Fixture.g0
  = (None, Fixture.g0,
     [TemplateOpened (Fixture.upload "notes.txt");
      StError ("Failed to create presentation file: " +:+ "Package not found")]).
Proof.
  apply (@template_load_failure Fixture.libs Fixture.overview (Fixture.upload "notes.txt")
           Fixture.g0 (Exception "PackageNotFoundError" "Package not found")).
  reflexivity.
Defined.

Lemma title_of_wrong_type_fails_witness :
  render_failed (Fixture.upload "two_layouts.pptx") Fixture.g0
    (@create_presentation Fixture.libs
       (PyDict (MoreFixture.outline_of MoreFixture.null_title))
       (Fixture.upload "two_layouts.pptx") Fixture.g0).
Proof.
  apply (@title_of_wrong_type_fails Fixture.libs
           (MoreFixture.outline_of MoreFixture.null_title)
           [PyDict Fixture.overview_entry; PyDict MoreFixture.null_title] 1
           MoreFixture.null_title PyNone (Fixture.upload "two_layouts.pptx")
           Fixture.two_layouts Fixture.title_and_content Fixture.g0);
    [reflexivity | reflexivity | reflexivity | reflexivity | reflexivity | reflexivity
    | eexists; reflexivity].
Defined.

Lemma content_item_of_wrong_type_fails_witness :
  render_failed (Fixture.upload "two_layouts.pptx") Fixture.g0
    (@create_presentation Fixture.libs
       (PyDict (MoreFixture.outline_of MoreFixture.mixed_content))
       (Fixture.upload "two_layouts.pptx") Fixture.g0).
Proof.
  apply (@content_item_of_wrong_type_fails Fixture.libs
           (MoreFixture.outline_of MoreFixture.mixed_content)
           [PyDict Fixture.overview_entry; PyDict MoreFixture.mixed_content] 1
           MoreFixture.mixed_content [PyStr "Alpha"; PyInt 2] 1 (PyInt 2)
           (Fixture.upload "two_layouts.pptx")
           Fixture.two_layouts Fixture.title_and_content Fixture.g0);
    [reflexivity | reflexivity | reflexivity | reflexivity | reflexivity | reflexivity
    | reflexivity | eexists; reflexivity].
Defined.

Lemma title_is_written_witness :
  ∃ (prs' : Presentation) (slide : Slide) (title : Shape),
    @create_presentation Fixture.libs (PyDict Fixture.overview_dict)
      (Fixture.upload "two_layouts.pptx") Fixture.g0
    = (Some (@save_to_stream Fixture.libs prs'), Fixture.g0,
       [TemplateOpened (Fixture.upload "two_layouts.pptx")])
    ∧ @render_outline Fixture.libs (PyDict Fixture.overview_dict) Fixture.two_layouts
      = Ok prs'
    ∧ slides prs' !! (length (slides Fixture.two_layouts) + 0) = Some slide
    ∧ title_placeholder slide = Some title
    ∧ paragraphs (text_frame title) = [bullet "Overview"]
    ∧ (plain_text "Overview" = true → paragraphs (text_frame title) = [bullet "Overview"]).
Proof.
  apply (@title_is_written Fixture.libs Fixture.overview_dict
           [PyDict Fixture.overview_entry] (Fixture.upload "two_layouts.pptx")
           Fixture.two_layouts Fixture.title_and_content Fixture.g0 0
           (PyDict Fixture.overview_entry));
    [reflexivity | reflexivity | reflexivity | reflexivity
    | eexists; reflexivity | reflexivity].
Defined.

Lemma string_content_witness :
  ∃ (slide : Slide) (body : Shape),
    @add_outline_slide Fixture.libs Fixture.title_and_content
      (PyDict MoreFixture.accented_content) Fixture.two_layouts
    = Ok (append_slide slide Fixture.two_layouts)
    ∧ body_placeholder slide = Some body
    ∧ paragraphs (text_frame body) = [bullet "n"; bullet "é"]
    ∧ length (paragraphs (text_frame body)) = 2.
Proof.
  apply (@string_content_is_split_into_characters Fixture.libs Fixture.title_and_content
           MoreFixture.accented_content Fixture.two_layouts "n"%char
           (String (ascii_of_nat 195) (String (ascii_of_nat 169) EmptyString))
           (clone_placeholder (Fixture.ph 1 OBJECT)));
    reflexivity.
Defined.

Lemma falsy_content_witness :
  @add_outline_slide Fixture.libs Fixture.title_and_content
    (PyDict MoreFixture.null_content) Fixture.two_layouts
  = @add_outline_slide Fixture.libs Fixture.title_and_content
      (PyDict (<["content" := PyList []]> MoreFixture.null_content)) Fixture.two_layouts.
Proof.
  apply (@falsy_content_is_empty_content Fixture.libs Fixture.title_and_content
           MoreFixture.null_content PyNone Fixture.two_layouts);
    reflexivity.
Defined.

Lemma render_outline_only_appends_witness :
  slide_layouts (append_slide (expected_slide Fixture.title_and_content
                                 (PyDict Fixture.overview_entry)) Fixture.two_layouts)
  = slide_layouts Fixture.two_layouts
  ∧ ∃ (entries : list pyval) (new : list Slide),
      py_get Fixture.overview "slides" (PyList []) ≫= py_iter = Ok entries
      ∧ slides (append_slide (expected_slide Fixture.title_and_content
                                (PyDict Fixture.overview_entry)) Fixture.two_layouts)
        = slides Fixture.two_layouts ++ new
      ∧ length new = length entries.
Proof.
  apply (@render_outline_only_appends Fixture.libs Fixture.overview Fixture.two_layouts).
  vm_compute. reflexivity.
Defined.

Lemma only_title_and_body_witness :
  ∃ slide : Slide,
    append_slide (expected_slide Fixture.title_and_content (PyDict Fixture.overview_entry))
      Fixture.two_layouts
    = append_slide slide Fixture.two_layouts
    ∧ placeholder_format <$> shapes slide
      = placeholder_format <$> shapes (clone_layout_placeholders Fixture.title_and_content)
    ∧ ∀ (k : nat) (sh : Shape),
        shapes (clone_layout_placeholders Fixture.title_and_content) !! k = Some sh →
        ¬ has_idx 0 sh → ¬ has_idx 1 sh →
        shapes slide !! k = Some sh.
Proof.
  apply (@only_title_and_body_are_written Fixture.libs Fixture.title_and_content
           (PyDict Fixture.overview_entry) Fixture.two_layouts).
  vm_compute. reflexivity.
Defined.

Lemma no_title_placeholder_witness :
  ∃ prs' : Presentation,
    @create_presentation
      (MoreFixture.libs_with (Fixture.reply_with Fixture.overview_text)
         (Ok Fixture.overview) (Ok MoreFixture.body_only_template))
      (PyDict (MoreFixture.outline_of MoreFixture.number_title))
      (Fixture.upload "body_only.pptx") Fixture.g0
    = (Some (@save_to_stream
               (MoreFixture.libs_with (Fixture.reply_with Fixture.overview_text)
                  (Ok Fixture.overview) (Ok MoreFixture.body_only_template)) prs'),
       Fixture.g0, [TemplateOpened (Fixture.upload "body_only.pptx")])
    ∧ @render_outline
        (MoreFixture.libs_with (Fixture.reply_with Fixture.overview_text)
           (Ok Fixture.overview) (Ok MoreFixture.body_only_template))
        (PyDict (MoreFixture.outline_of MoreFixture.number_title))
        MoreFixture.body_only_template
      = Ok prs'
    ∧ length (slides prs') = length (slides MoreFixture.body_only_template) + 2
    ∧ ∀ (n : nat) (e : pyval),
        [PyDict Fixture.overview_entry; PyDict MoreFixture.number_title] !! n = Some e →
        ∃ slide : Slide,
          slides prs' !! (length (slides MoreFixture.body_only_template) + n) = Some slide
          ∧ (∀ body : Shape,
               body_placeholder (clone_layout_placeholders MoreFixture.body_only)
               = Some body →
               ∃ body' : Shape,
                 body_placeholder slide = Some body'
                 ∧ paragraphs (text_frame body')
                   = match content_strings e with
                     | [] => [empty_paragraph]
                     | cs => (λ c, bullet (paragraph_text c)) <$> cs
                     end)
          ∧ (∀ (k : nat) (sh : Shape),
               shapes (clone_layout_placeholders MoreFixture.body_only) !! k = Some sh →
               ¬ has_idx 1 sh →
               shapes slide !! k = Some sh).
Proof.
  apply (@no_title_placeholder_ignores_titles
           (MoreFixture.libs_with (Fixture.reply_with Fixture.overview_text)
              (Ok Fixture.overview) (Ok MoreFixture.body_only_template))
           (MoreFixture.outline_of MoreFixture.number_title)
           [PyDict Fixture.overview_entry; PyDict MoreFixture.number_title]
           (Fixture.upload "body_only.pptx") MoreFixture.body_only_template
           MoreFixture.body_only Fixture.g0);
    reflexivity.
Defined.

Lemma api_call_failure_witness :
  @generate_slide_content
    (Fixture.stub (Raise (Exception "AuthenticationError" "Incorrect API key provided")))
    "sk-test" "Alpha. Beta. Gamma." EmptyString Fixture.g0
  = (PyNone, {| openai_api_key := Some "sk-test" |},
     [ChatRequestSent (Some "sk-test")
        (chat_request (prompt "Alpha. Beta. Gamma." EmptyString));
      StError ("An error occurred with the LLM API call: "
               +:+ "Incorrect API key provided")])
  ∧ events_of
      (@script
         (Fixture.stub (Raise (Exception "AuthenticationError" "Incorrect API key provided")))
         true "Alpha. Beta. Gamma." EmptyString "sk-test"
         (Some (Fixture.upload "two_layouts.pptx")) Fixture.g0)
    = [StSpinner "Generating slide content with AI... 🧠";
       ChatRequestSent (Some "sk-test")
         (chat_request (prompt "Alpha. Beta. Gamma." EmptyString));
       StError ("An error occurred with the LLM API call: "
                +:+ "Incorrect API key provided")]
  ∧ renderer_ran
      (events_of
         (@script
            (Fixture.stub (Raise (Exception "AuthenticationError" "Incorrect API key provided")))
            true "Alpha. Beta. Gamma." EmptyString "sk-test"
            (Some (Fixture.upload "two_layouts.pptx")) Fixture.g0)) = false
  ∧ download_offered
      (events_of
         (@script
            (Fixture.stub (Raise (Exception "AuthenticationError" "Incorrect API key provided")))
            true "Alpha. Beta. Gamma." EmptyString "sk-test"
            (Some (Fixture.upload "two_layouts.pptx")) Fixture.g0)) = false.
Proof.
  apply (@api_call_failure
           (Fixture.stub (Raise (Exception "AuthenticationError" "Incorrect API key provided")))
           "Alpha. Beta. Gamma." EmptyString "sk-test" (Fixture.upload "two_layouts.pptx")
           Fixture.g0 (Exception "AuthenticationError" "Incorrect API key provided"));
    reflexivity.
Defined.

Lemma reply_without_text_witness :
  value_of (@generate_slide_content (Fixture.stub (Ok {| choices := [] |}))
              "sk-test" "Alpha. Beta. Gamma." EmptyString Fixture.g0) = PyNone
  ∧ length (filter (λ e, is_error e = true)
              (events_of (@script (Fixture.stub (Ok {| choices := [] |})) true
                            "Alpha. Beta. Gamma." EmptyString "sk-test"
                            (Some (Fixture.upload "two_layouts.pptx")) Fixture.g0))) = 1
  ∧ renderer_ran
      (events_of (@script (Fixture.stub (Ok {| choices := [] |})) true
                    "Alpha. Beta. Gamma." EmptyString "sk-test"
                    (Some (Fixture.upload "two_layouts.pptx")) Fixture.g0)) = false
  ∧ download_offered
      (events_of (@script (Fixture.stub (Ok {| choices := [] |})) true
                    "Alpha. Beta. Gamma." EmptyString "sk-test"
                    (Some (Fixture.upload "two_layouts.pptx")) Fixture.g0)) = false.
Proof.
  apply (@reply_without_text (Fixture.stub (Ok {| choices := [] |}))
           "Alpha. Beta. Gamma." EmptyString "sk-test" (Fixture.upload "two_layouts.pptx")
           Fixture.g0 {| choices := [] |});
    [reflexivity | reflexivity | reflexivity | left; reflexivity].
Defined.

Lemma request_uses_submitted_key_witness :
  globals_of (@script Fixture.libs true "Alpha. Beta. Gamma." EmptyString "sk-test"
                (Some (Fixture.upload "two_layouts.pptx")) MoreFixture.stale)
  = {| openai_api_key := Some "sk-test" |}
  ∧ filter (λ e, is_request e = true)
      (events_of (@script Fixture.libs true "Alpha. Beta. Gamma." EmptyString "sk-test"
                    (Some (Fixture.upload "two_layouts.pptx")) MoreFixture.stale))
    = [ChatRequestSent (Some "sk-test")
         (chat_request (prompt "Alpha. Beta. Gamma." EmptyString))].
Proof.
  apply (@request_uses_submitted_key Fixture.libs "Alpha. Beta. Gamma." EmptyString
           "sk-test" (Fixture.upload "two_layouts.pptx") MoreFixture.stale);
    reflexivity.
Defined.

Lemma successful_run_witness :
  @script Fixture.libs true "Alpha. Beta. Gamma." EmptyString "sk-test"
    (Some (Fixture.upload "two_layouts.pptx")) Fixture.g0
  = ((), {| openai_api_key := Some "sk-test" |},
     [StSpinner "Generating slide content with AI... 🧠";
      ChatRequestSent (Some "sk-test")
        (chat_request (prompt "Alpha. Beta. Gamma." EmptyString));
      StSuccess "✅ Content structure generated!";
      StSpinner "Creating your presentation... 🎨";
      TemplateOpened (Fixture.upload "two_layouts.pptx");
      StSuccess "✅ Presentation created!";
      StDownloadButton "📥 Download Presentation"
        (@save_to_stream Fixture.libs
           (append_slide (expected_slide Fixture.title_and_content
                            (PyDict Fixture.overview_entry)) Fixture.two_layouts))
        "generated_presentation.pptx"
        "application/vnd.openxmlformats-officedocument.presentationml.presentation"
        true]).
Proof.
  apply (@successful_run_offers_download Fixture.libs "Alpha. Beta. Gamma." EmptyString
           "sk-test" (Fixture.upload "two_layouts.pptx") Fixture.g0
           {| choices := [ {| message_content := Some Fixture.overview_text |} ] |}
           {| message_content := Some Fixture.overview_text |} []
           Fixture.overview_text Fixture.overview Fixture.two_layouts);
    [reflexivity | reflexivity | reflexivity | reflexivity | reflexivity | reflexivity
    | reflexivity | reflexivity | vm_compute; reflexivity].
Defined.

Lemma renderer_failure_witness :
  events_of (@script Fixture.libs true "Alpha. Beta. Gamma." EmptyString "sk-test"
               (Some (Fixture.upload "one_layout.pptx")) Fixture.g0)
  = [StSpinner "Generating slide content with AI... 🧠";
     ChatRequestSent (Some "sk-test")
       (chat_request (prompt "Alpha. Beta. Gamma." EmptyString));
     StSuccess "✅ Content structure generated!";
     StSpinner "Creating your presentation... 🎨";
     TemplateOpened (Fixture.upload "one_layout.pptx");
     StError ("Failed to create presentation file: " +:+ "slide layout index out of range")]
  ∧ download_offered
      (events_of (@script Fixture.libs true "Alpha. Beta. Gamma." EmptyString "sk-test"
                    (Some (Fixture.upload "one_layout.pptx")) Fixture.g0)) = false.
Proof.
  apply (@renderer_failure_after_generation Fixture.libs "Alpha. Beta. Gamma." EmptyString
           "sk-test" (Fixture.upload "one_layout.pptx") Fixture.g0
           {| choices := [ {| message_content := Some Fixture.overview_text |} ] |}
           {| message_content := Some Fixture.overview_text |} []
           Fixture.overview_text Fixture.overview
           (Exception "IndexError" "slide layout index out of range"));
    reflexivity.
Defined.

Lemma download_only_after_success_witness :
  error_shown
    (events_of (@script Fixture.libs true "Alpha. Beta. Gamma." EmptyString "sk-test"
                  (Some (Fixture.upload "two_layouts.pptx")) Fixture.g0)) = false
  ∧ generator_ran
      (events_of (@script Fixture.libs true "Alpha. Beta. Gamma." EmptyString "sk-test"
                    (Some (Fixture.upload "two_layouts.pptx")) Fixture.g0)) = true
  ∧ renderer_ran
      (events_of (@script Fixture.libs true "Alpha. Beta. Gamma." EmptyString "sk-test"
                    (Some (Fixture.upload "two_layouts.pptx")) Fixture.g0)) = true
  ∧ ∃ (template_file : UploadedFile) (outline : pyval) (ppt_stream : BytesIO),
      Some (Fixture.upload "two_layouts.pptx") = Some template_file
      ∧ @create_presentation_try Fixture.libs outline template_file = Ok ppt_stream
      ∧ last (events_of (@script Fixture.libs true "Alpha. Beta. Gamma." EmptyString
                           "sk-test" (Some (Fixture.upload "two_layouts.pptx")) Fixture.g0))
        = Some (StDownloadButton "📥 Download Presentation" ppt_stream
                  "generated_presentation.pptx"
                  "application/vnd.openxmlformats-officedocument.presentationml.presentation"
                  true).
Proof.
  apply (@download_only_after_success Fixture.libs true "Alpha. Beta. Gamma." EmptyString
           "sk-test" (Some (Fixture.upload "two_layouts.pptx")) Fixture.g0).
  vm_compute. reflexivity.
Defined.

Lemma non_object_outline_witness :
  ∃ e : exn,
    events_of
      (@script
         (MoreFixture.libs_with (Fixture.reply_with "[1]") (Ok (PyList [PyInt 1]))
            (Ok Fixture.two_layouts))
         true "Alpha. Beta. Gamma." EmptyString "sk-test"
         (Some (Fixture.upload "two_layouts.pptx")) Fixture.g0)
    = [StSpinner "Generating slide content with AI... 🧠";
       ChatRequestSent (Some "sk-test")
         (chat_request (prompt "Alpha. Beta. Gamma." EmptyString));
       StSuccess "✅ Content structure generated!";
       StSpinner "Creating your presentation... 🎨";
       TemplateOpened (Fixture.upload "two_layouts.pptx");
       StError ("Failed to create presentation file: " +:+ exn_str e)].
Proof.
  apply (@non_object_outline_fails_in_renderer
           (MoreFixture.libs_with (Fixture.reply_with "[1]") (Ok (PyList [PyInt 1]))
              (Ok Fixture.two_layouts))
           "Alpha. Beta. Gamma." EmptyString "sk-test" (Fixture.upload "two_layouts.pptx")
           Fixture.g0 {| choices := [ {| message_content := Some "[1]" |} ] |}
           {| message_content := Some "[1]" |} [] "[1]" (PyList [PyInt 1]));
    reflexivity.
Defined.

